(** * Catalyst Center Agent: device API client and chat turn

    A shallow embedding of [ai_tools.py] (authentication, paginated device
    inventory, device configuration) and of the parts of [ai_agent.py] that
    decide start-up and the processing of one user turn.

    Python values are embedded as [pyval], exceptions as [exn], and a call
    that may raise as [result].  The HTTP library, the language-model graph
    and the process environment are external: they appear as parameters
    ([http], [graph], the environment maps). *)

From Stdlib Require Import ZArith String Ascii List Bool Lia.
From stdpp Require Import base option list strings pretty gmap.

Open Scope Z_scope.
Set Warnings "-register-all".

(** ** Python values *)

(** The values [json.loads] produces, which are also the values a message
    content may hold.  A [PDict] lists its entries in insertion order; a
    lookup takes the first binding of a key.  Numbers are the integers. *)
Inductive pyval : Type :=
| PNone
| PBool (b : bool)
| PInt (z : Z)
| PStr (s : string)
| PList (items : list pyval)
| PDict (entries : list (string * pyval)).

(** The exception classes the two modules can meet.  [KeyboardInterrupt]
    and [SystemExit] derive from [BaseException] only; every other class
    derives from [Exception]. *)
Inductive exn : Type :=
| ValueError (msg : string)
| KeyError (key : string)
| TypeError
| AttributeError
| IndexError
| JSONDecodeError
| RequestException (msg : string)
| EnvironmentError (msg : string)
| OtherException (name : string)
| KeyboardInterrupt
| SystemExit.

(** [isinstance(e, Exception)]: what [except Exception] catches. *)
Definition is_Exception (e : exn) : bool :=
  match e with
  | KeyboardInterrupt | SystemExit => false
  | _ => true
  end.

Inductive result (A : Type) : Type :=
| Return (a : A)
| Raise (e : exn).
Arguments Return {A} a.
Arguments Raise {A} e.

Definition bind {A B : Type} (r : result A) (k : A -> result B) : result B :=
  match r with
  | Return a => k a
  | Raise e => Raise e
  end.

Notation "x <- r ;; k" := (bind r (fun x => k))
  (at level 100, r at next level, right associativity).

Definition raises {A : Type} (r : result A) : Prop :=
  match r with
  | Return _ => False
  | Raise _ => True
  end.

(** Truth value of a Python object, as tested by [if v:] and [if not v:]. *)
Definition truthy (v : pyval) : bool :=
  match v with
  | PNone => false
  | PBool b => b
  | PInt z => negb (z =? 0)
  | PStr s => negb (String.eqb s EmptyString)
  | PList items => match items with [] => false | _ :: _ => true end
  | PDict entries => match entries with [] => false | _ :: _ => true end
  end.

(** Association-list lookup: [d.get(k)] without a default. *)
Fixpoint assoc (k : string) (entries : list (string * pyval)) : option pyval :=
  match entries with
  | [] => None
  | (k', v) :: rest => if String.eqb k k' then Some v else assoc k rest
  end.

(** [v.get(k)]: only a dict has the method. *)
Definition py_get (v : pyval) (k : string) : result pyval :=
  match v with
  | PDict entries =>
      match assoc k entries with
      | Some x => Return x
      | None => Return PNone
      end
  | _ => Raise AttributeError
  end.

(** [v[k]] with a string key. *)
Definition py_subscript (v : pyval) (k : string) : result pyval :=
  match v with
  | PDict entries =>
      match assoc k entries with
      | Some x => Return x
      | None => Raise (KeyError k)
      end
  | _ => Raise TypeError
  end.

(** [list(v)]: the items [l.extend(v)] would add. *)
Definition py_iter (v : pyval) : result (list pyval) :=
  match v with
  | PList items => Return items
  | PStr s => Return (map (fun c => PStr (String c EmptyString)) (list_ascii_of_string s))
  | PDict entries => Return (map (fun kv => PStr (fst kv)) entries)
  | PNone | PBool _ | PInt _ => Raise TypeError
  end.

(** [needle in hay] on strings. *)
Fixpoint str_contains (needle hay : string) : bool :=
  String.prefix needle hay ||
  match hay with
  | EmptyString => false
  | String _ rest => str_contains needle rest
  end.

(** [str(x)] of an optional string: [None] prints as its name. *)
Definition fmt_opt (x : option string) : string :=
  match x with
  | Some s => s
  | None => "None"
  end.

(** ** The HTTP library, as far as the client uses it *)

Inductive http_method : Type := GET | POST.

Record request : Type := mkRequest {
  method : http_method;
  url : string;
  headers : list (string * string);
  auth : option (option string * option string);
  verify : bool
}.

(** A response object: its [text], and what [json()] gives ([None] when the
    body does not decode, in which case [json()] raises). *)
Record response : Type := mkResponse {
  text : string;
  json : option pyval
}.

Definition response_json (r : response) : result pyval :=
  match json r with
  | Some v => Return v
  | None => Raise JSONDecodeError
  end.

Inductive outcome : Type :=
| Responds (r : response)
| Fails (e : exn).

(** ** [ai_tools.py] *)

(** The module's globals.  The first three come from [os.getenv], which
    gives [None] for an unset variable. *)
Record globals : Type := mkGlobals {
  _BASE_URL : option string;
  _USERNAME : option string;
  _PASSWORD : option string;
  _TOKEN : pyval
}.

Definition set_TOKEN (g : globals) (v : pyval) : globals :=
  mkGlobals (_BASE_URL g) (_USERNAME g) (_PASSWORD g) v.

(** How a pagination loop is left: by [break], or by an exception. *)
Inductive loop_end : Type :=
| Broke
| Raised (e : exn).

(** What one call of [get_device_inventory] does: its result, the requests
    it issued in order, and the exceptions it printed. *)
Record inventory_run : Type := mkRun {
  returned : result (list pyval);
  sent : list request;
  printed : list exn
}.

Section Client.

(** [http n req] is the outcome of the HTTP call [req] made after [n]
    earlier calls of the same operation. *)
Variable http : nat -> request -> outcome.

(** [repr] of a value that is not a string, for [str.format]. *)
Variable py_repr : pyval -> string.

Definition py_str (v : pyval) : string :=
  match v with
  | PStr s => s
  | _ => py_repr v
  end.

Definition auth_request (g : globals) : request :=
  mkRequest POST (fmt_opt (_BASE_URL g) +:+ "/dna/system/api/v1/auth/token")
            [] (Some (_USERNAME g, _PASSWORD g)) false.

Definition get_auth_token (g : globals) : result pyval * globals :=
  match http 0%nat (auth_request g) with
  | Fails e => (Raise e, g)
  | Responds response =>
      if str_contains "error" (text response) then
        (body <- response_json response ;;
         reason <- py_subscript body "error" ;;
         Raise (ValueError ("ERROR: Failed to retrieve Access Token! REASON: " +:+ py_str reason)),
         g)
      else
        match (body <- response_json response ;; py_subscript body "Token") with
        | Raise e => (Raise e, g)
        | Return token =>
            (body <- response_json response ;; py_subscript body "Token",
             set_TOKEN g token)
        end
  end.

Definition api_headers (token : string) : list (string * string) :=
  [("x-auth-token", token);
   ("Content-Type", "application/json");
   ("Accept", "application/json")].

Definition limit : Z := 500.

Definition inventory_url (g : globals) (offset : Z) : string :=
  fmt_opt (_BASE_URL g) +:+ "/dna/intent/api/v1/network-device?&offset="
    +:+ pretty offset +:+ "&limit=" +:+ pretty limit.

Definition inventory_request (g : globals) (token : string) (offset : Z) : request :=
  mkRequest GET (inventory_url g offset) (api_headers token) None false.

(** One pass through the body of [while True]: [Some items] when the page
    is kept and the loop goes on, [None] on [break]. *)
Definition read_page (o : outcome) : result (option (list pyval)) :=
  match o with
  | Fails e => Raise e
  | Responds response =>
      body <- response_json response ;;
      page <- py_get body "response" ;;
      if truthy page then
        body' <- response_json response ;;
        records <- py_subscript body' "response" ;;
        items <- py_iter records ;;
        Return (Some items)
      else Return None
  end.

(** The [while True] loop.  It has no bound in the source; [fuel] bounds
    the number of passes, and [None] means the bound was reached. *)
Fixpoint pagination (fuel : nat) (g : globals) (token : string)
    (issued : list request) (offset : Z) (device_list : list pyval)
    : option (loop_end * list pyval * list request) :=
  match fuel with
  | O => None
  | S fuel' =>
      let req := inventory_request g token offset in
      match read_page (http (length issued) req) with
      | Raise e => Some (Raised e, device_list, issued ++ [req])
      | Return None => Some (Broke, device_list, issued ++ [req])
      | Return (Some items) =>
          pagination fuel' g token (issued ++ [req]) (offset + limit)
                     (device_list ++ items)
      end
  end.

Definition get_device_inventory (fuel : nat) (g : globals) (token : string)
    : option inventory_run :=
  match pagination fuel g token [] 1 [] with
  | None => None
  | Some (Broke, device_list, issued) =>
      Some (mkRun (Return device_list) issued [])
  | Some (Raised e, device_list, issued) =>
      if is_Exception e
      then Some (mkRun (Return device_list) issued [e])
      else Some (mkRun (Raise e) issued [])
  end.

Definition config_request (g : globals) (token device_id : string) : request :=
  mkRequest GET
    (fmt_opt (_BASE_URL g) +:+ "/dna/intent/api/v1/network-device/"
       +:+ device_id +:+ "/config")
    (api_headers token) None false.

Definition get_device_config (g : globals) (token device_id : string)
    : result pyval :=
  match http 0%nat (config_request g token device_id) with
  | Fails e => Raise e
  | Responds response =>
      body <- response_json response ;;
      py_subscript body "response"
  end.

End Client.

(** ** [ai_agent.py]: start-up *)

(** [os.environ] and the entries of the [.env] file, as maps from names to
    values. *)
Definition os_getenv (environ : gmap string string) (name : string) : option string :=
  environ !! name.

(** [load_dotenv()]: entries of the file are added to the environment; a
    variable that is already set keeps its value. *)
Definition load_dotenv (dotenv environ : gmap string string) : gmap string string :=
  environ ∪ dotenv.

(** Import of [ai_tools]: the environment after [load_dotenv()], and the
    module's globals. *)
Definition ai_tools_module (dotenv environ : gmap string string)
    : gmap string string * globals :=
  let environ' := load_dotenv dotenv environ in
  (environ',
   mkGlobals (os_getenv environ' "_BASE_URL") (os_getenv environ' "_USERNAME")
             (os_getenv environ' "_PASSWORD") (PStr "")).

(** [not x] for the result of [os.getenv]. *)
Definition missing (x : option string) : bool :=
  match x with
  | None => true
  | Some s => String.eqb s EmptyString
  end.

Definition missing_key_message : string :=
  "OpenAI API key is missing. Please check your .env file or environment variables.".

(** The module-level statements of [ai_agent] up to the definitions: the
    value of [OPENAI_API_KEY] and the globals of [ai_tools], or the
    exception that ends the import. *)
Definition ai_agent_module (dotenv environ : gmap string string)
    : result (string * globals) :=
  let '(environ', g) := ai_tools_module dotenv environ in
  let OPENAI_API_KEY := os_getenv environ' "AI_ACCESS_TOKEN" in
  if missing OPENAI_API_KEY
  then Raise (EnvironmentError missing_key_message)
  else Return (fmt_opt OPENAI_API_KEY, g).

(** Running the file as a script: [main] is called only after the module
    level has completed. *)
Definition run_script {A : Type} (dotenv environ : gmap string string)
    (main : string -> globals -> result A) : result A :=
  loaded <- ai_agent_module dotenv environ ;;
  main (fst loaded) (snd loaded).

(** ** [ai_agent.py]: one user turn *)

(** What reading the attribute [content] of an object does. *)
Inductive attr_lookup : Type :=
| AttrValue (v : pyval)
| AttrMissing
| AttrRaises (e : exn).

(** A message is a dict, or an object that may carry a [content]
    attribute. *)
Inductive message : Type :=
| MsgDict (entries : list (string * pyval))
| MsgObject (content : attr_lookup).

Definition user_message (user_input : string) : message :=
  MsgDict [("role", PStr "user"); ("content", PStr user_input)].

Definition assistant_message (final_response : pyval) : message :=
  MsgDict [("role", PStr "assistant"); ("content", final_response)].

(** List objects live in a store; [st.session_state.messages] and
    [state["messages"]] hold a reference to the same one. *)
Definition loc : Type := nat.

Record session_state : Type := mkSession {
  messages : option loc
}.

(** [l.append(m)] on the list object at [r]. *)
Definition list_append (h : gmap loc (list message)) (r : loc) (m : message)
    : gmap loc (list message) :=
  alter (fun l => l ++ [m]) r h.

(** [initialize_session_state]: a new empty list when the key is absent. *)
Definition initialize_session_state (st : session_state) (h : gmap loc (list message))
    : session_state * gmap loc (list message) :=
  match messages st with
  | Some _ => (st, h)
  | None => let r := fresh (dom h) in (mkSession (Some r), <[r := []]> h)
  end.

(** Reading [st.session_state.messages]. *)
Definition read_messages (st : session_state) (h : gmap loc (list message))
    : option (list message) :=
  r ← messages st; h !! r.

(** An event of the stream: the list under its key [messages], if any. *)
Definition event : Type := option (list message).

(** The events [graph.stream] yields, and the exception that ends the
    iteration when it does not end normally. *)
Record stream : Type := mkStream {
  events : list event;
  ending : option exn
}.

Inductive line : Type :=
| Thinking (m : message)
| ErrorProcessing (e : exn).

Definition no_content : pyval := PStr "No content available".

Definition placeholder : pyval := PStr "Error displaying response.".

Definition is_AttributeError (e : exn) : bool :=
  match e with
  | AttributeError => true
  | _ => false
  end.

(** The two branches inside [try]: [dict.get] with a default, and
    [getattr] with a default (which absorbs [AttributeError] only). *)
Definition extract_content (m : message) : result pyval :=
  match m with
  | MsgDict entries =>
      match assoc "content" entries with
      | Some v => Return v
      | None => Return no_content
      end
  | MsgObject (AttrValue v) => Return v
  | MsgObject AttrMissing => Return no_content
  | MsgObject (AttrRaises e) =>
      if is_AttributeError e then Return no_content else Raise e
  end.

(** [msgs[-1]]. *)
Definition last_message (msgs : list message) : result message :=
  match last msgs with
  | Some m => Return m
  | None => Raise IndexError
  end.

(** The body of the [for] loop on one event: the new [final_response] and
    the lines printed. *)
Definition handle_event (ev : event) (final_response : pyval)
    : result pyval * list line :=
  match ev with
  | None => (Return final_response, [])
  | Some msgs =>
      match last_message msgs with
      | Raise e => (Raise e, [])
      | Return m =>
          match extract_content m with
          | Return v => (Return v, [Thinking m])
          | Raise e =>
              if is_Exception e
              then (Return placeholder, [Thinking m; ErrorProcessing e])
              else (Raise e, [Thinking m])
          end
      end
  end.

Fixpoint for_events (evs : list event) (ending : option exn)
    (final_response : pyval) : result pyval * list line :=
  match evs with
  | [] =>
      match ending with
      | Some e => (Raise e, [])
      | None => (Return final_response, [])
      end
  | ev :: rest =>
      match handle_event ev final_response with
      | (Raise e, out) => (Raise e, out)
      | (Return v, out) =>
          let '(r, out') := for_events rest ending v in (r, out ++ out')
      end
  end.

Section Turn.

(** [graph.stream(state, config, stream_mode="values")], given the
    messages of [state]. *)
Variable graph : list message -> stream.

Definition process_user_message (user_input : string) (st : session_state)
    (h : gmap loc (list message))
    : result unit * gmap loc (list message) * list line :=
  match messages st with
  | None => (Raise AttributeError, h, [])
  | Some r =>
      let state_messages := r in
      let h1 := list_append h state_messages (user_message user_input) in
      let s := graph (default [] (h1 !! state_messages)) in
      match for_events (events s) (ending s) PNone with
      | (Raise e, out) => (Raise e, h1, out)
      | (Return final_response, out) =>
          if truthy final_response
          then (Return tt, list_append h1 r (assistant_message final_response), out)
          else (Return tt, h1, out)
      end
  end.

End Turn.

(** ** [ai_agent.py]: the page *)

(** [c.isspace()] for a character below 256. *)
Definition py_isspace (c : ascii) : bool :=
  let n := nat_of_ascii c in
  (Nat.leb 9 n && Nat.leb n 13) || (Nat.leb 28 n && Nat.leb n 32)
  || Nat.eqb n 133 || Nat.eqb n 160.

Fixpoint lstrip (s : string) : string :=
  match s with
  | EmptyString => EmptyString
  | String c rest => if py_isspace c then lstrip rest else s
  end.

Fixpoint rstrip (s : string) : string :=
  match s with
  | EmptyString => EmptyString
  | String c rest =>
      match rstrip rest with
      | EmptyString => if py_isspace c then EmptyString else String c EmptyString
      | kept => String c kept
      end
  end.

(** [s.strip()]. *)
Definition strip (s : string) : string := rstrip (lstrip s).

(** What the script puts on the page. *)
Inductive widget : Type :=
| Title (s : string)
| TextInput (label placeholder : string)
| Button (label : string)
| Written (s : string).

(** [get_user_input], given what the user has typed into the box. *)
Definition get_user_input (typed : string) : string * list widget :=
  (typed, [TextInput "You:" "Type your question here..."]).

(** [msg.get("role") == role]. *)
Definition has_role (role : string) (entries : list (string * pyval)) : bool :=
  match assoc "role" entries with
  | Some (PStr s) => String.eqb s role
  | _ => false
  end.

Section Page.

Variable graph : list message -> stream.
Variable py_repr : pyval -> string.

(** The body of the loop of [display_chat_history] for one message: what
    it writes. *)
Definition display_message (msg : message) : result (list widget) :=
  match msg with
  | MsgDict entries =>
      if has_role "user" entries then
        content <- py_subscript (PDict entries) "content" ;;
        Return [Written ("**You:** " +:+ py_str py_repr content)]
      else if has_role "assistant" entries then
        content <- py_subscript (PDict entries) "content" ;;
        Return [Written ("**Assistant:** " +:+ py_str py_repr content)]
      else Return []
  | MsgObject _ => Return []
  end.

Fixpoint display_messages (msgs : list message) : result unit * list widget :=
  match msgs with
  | [] => (Return tt, [])
  | msg :: rest =>
      match display_message msg with
      | Raise e => (Raise e, [])
      | Return written =>
          let '(r, written') := display_messages rest in (r, written ++ written')
      end
  end.

Definition display_chat_history (st : session_state) (h : gmap loc (list message))
    : result unit * list widget :=
  match messages st with
  | None => (Raise AttributeError, [Written "### Chat History"])
  | Some r =>
      let '(res, written) := display_messages (default [] (h !! r)) in
      (res, Written "### Chat History" :: written)
  end.

(** One run of [main]: [typed] is the content of the input box and [send]
    tells whether the button was pressed.  The result holds the session
    state and the store after the run, the lines printed and the page. *)
Definition main (typed : string) (send : bool) (st : session_state)
    (h : gmap loc (list message))
    : result unit * session_state * gmap loc (list message) * list line * list widget :=
  let '(st1, h1) := initialize_session_state st h in
  let '(user_input, box) := get_user_input typed in
  let top := Title "Catalyst Center Agent Buddy" :: box ++ [Button "Send"] in
  if send && truthy (PStr (strip user_input)) then
    match process_user_message graph user_input st1 h1 with
    | (Raise e, h2, out) => (Raise e, st1, h2, out, top)
    | (Return _, h2, out) =>
        let '(res, written) := display_chat_history st1 h2 in
        (res, st1, h2, out, top ++ written)
    end
  else
    let '(res, written) := display_chat_history st1 h1 in
    (res, st1, h1, [], top ++ written).

End Page.

(** ** [ai_agent.py]: the graph *)

Inductive vertex : Type :=
| START
| END
| Node (name : string).

Global Instance vertex_eq_dec : EqDecision vertex.
Proof. solve_decision. Defined.

(** A graph under construction: its nodes, its edges, and the nodes that
    have a conditional edge routed by [tools_condition]. *)
Record state_graph : Type := mkGraph {
  nodes : list string;
  edges : list (vertex * vertex);
  conditional : list vertex
}.

Definition StateGraph : state_graph := mkGraph [] [] [].

Definition add_node (name : string) (gb : state_graph) : state_graph :=
  mkGraph (nodes gb ++ [name]) (edges gb) (conditional gb).

Definition add_conditional_edges (source : vertex) (gb : state_graph) : state_graph :=
  mkGraph (nodes gb) (edges gb) (conditional gb ++ [source]).

Definition add_edge (a b : vertex) (gb : state_graph) : state_graph :=
  mkGraph (nodes gb) (edges gb ++ [(a, b)]) (conditional gb).

(** The calls of [build_langgraph] on the builder, in their order. *)
Definition graph_builder : state_graph :=
  add_edge START (Node "chatbot")
    (add_edge (Node "tools") (Node "chatbot")
       (add_conditional_edges (Node "chatbot")
          (add_node "tools" (add_node "chatbot" StateGraph)))).

(** [tools_condition] names the node [tools] when the last message asks for
    tool calls, and the end of the graph otherwise. *)
Definition tools_condition_routes : list vertex := [Node "tools"; END].

(** The vertices that may run right after [v]. *)
Definition successors (gb : state_graph) (v : vertex) : list vertex :=
  map snd (List.filter (fun e => bool_decide (fst e = v)) (edges gb))
  ++ (if bool_decide (v ∈ conditional gb) then tools_condition_routes else []).

(** Consecutive vertices of [path] follow an edge of the graph. *)
Fixpoint is_walk (gb : state_graph) (path : list vertex) : bool :=
  match path with
  | a :: rest =>
      match rest with
      | b :: _ => bool_decide (b ∈ successors gb a) && is_walk gb rest
      | [] => true
      end
  | [] => true
  end.

(** The path of a run with [k] rounds of tool calls. *)
Definition run_path (k : nat) : list vertex :=
  START :: Node "chatbot" :: concat (replicate k [Node "tools"; Node "chatbot"]) ++ [END].

(** ** Fixtures: scripted servers and sample data *)

Module Fixture.

Definition dq : string := String (ascii_of_nat 34) EmptyString.

Fixpoint join (sep : string) (parts : list string) : string :=
  match parts with
  | [] => ""
  | [p] => p
  | p :: rest => p +:+ sep +:+ join sep rest
  end.

(** The body text of a response carrying [v], for values whose strings
    need no escaping. *)
Fixpoint dumps (v : pyval) : string :=
  match v with
  | PNone => "null"
  | PBool true => "true"
  | PBool false => "false"
  | PInt z => pretty z
  | PStr s => dq +:+ s +:+ dq
  | PList items => "[" +:+ join ", " (map dumps items) +:+ "]"
  | PDict entries =>
      "{" +:+ join ", " (map (fun kv => match kv with
                                         | (k, x) => dq +:+ k +:+ dq +:+ ": " +:+ dumps x
                                         end) entries) +:+ "}"
  end.

Definition json_response (v : pyval) : response :=
  mkResponse (dumps v) (Some v).

Definition page (records : list pyval) : outcome :=
  Responds (json_response (PDict [("response", PList records)])).

(** A server that answers the [n]-th call with the [n]-th entry of a
    script, and with [after] once the script is used up. *)
Definition scripted (script : list outcome) (after : outcome)
    : nat -> request -> outcome :=
  fun n _ => default after (script !! n).

Definition sample_globals : globals :=
  mkGlobals (Some "https://cc.example.net") (Some "admin") (Some "secret") (PStr "").

Definition device (name : string) : pyval :=
  PDict [("id", PStr name); ("family", PStr "Switches and Hubs")].

Definition plain_repr (v : pyval) : string := dumps v.

Definition connection_reset : exn := RequestException "Connection reset by peer".

Definition full_page : list pyval := replicate 500 (device "access-switch").

Definition short_page : list pyval := [device "edge-1"; device "edge-2"].

(** One full page, then a short one, then empty pages. *)
Definition two_page_server : nat -> request -> outcome :=
  scripted [page full_page; page short_page] (page []).

(** A single page with one record, then empty pages. *)
Definition one_record_server : nat -> request -> outcome :=
  scripted [page [device "d1"]] (page []).

(** Three pages, of which the second cannot be fetched. *)
Definition failing_second_page_server : nat -> request -> outcome :=
  scripted [page [device "core-1"; device "core-2"];
            Fails connection_reset;
            page [device "edge-1"]] (page []).

(** A server that answers every call with the same response. *)
Definition constant_server (r : response) : nat -> request -> outcome :=
  fun _ _ => Responds r.

Definition bad_credentials : response :=
  json_response (PDict [("error", PStr "bad credentials")]).

Definition token_granted : response :=
  json_response (PDict [("Token", PStr "eyJhbGciOiJSUzI1NiJ9")]).

(** A body with a token whose text happens to contain the word. *)
Definition token_spelling_error : response :=
  json_response (PDict [("Token", PStr "st-error-free-0451")]).

Definition running_config : response :=
  json_response (PDict [("response", PStr "hostname edge-1"); ("version", PStr "1.0")]).

Definition environ_without_key : gmap string string :=
  {[ "_BASE_URL" := "https://cc.example.net"; "_USERNAME" := "admin" ]}.

Definition dotenv_without_key : gmap string string :=
  {[ "_PASSWORD" := "secret" ]}.

Definition environ_with_key : gmap string string :=
  {[ "AI_ACCESS_TOKEN" := "sk-live-0451"; "_USERNAME" := "admin" ]}.

Definition environ_with_empty_key : gmap string string :=
  {[ "AI_ACCESS_TOKEN" := ""; "_BASE_URL" := "https://cc.example.net" ]}.

Definition dotenv_with_key : gmap string string :=
  {[ "AI_ACCESS_TOKEN" := "sk-dotenv-7"; "_PASSWORD" := "secret" ]}.

(** A session right after [initialize_session_state]. *)
Definition new_session : session_state * gmap loc (list message) :=
  initialize_session_state (mkSession None) ∅.

(** A message object whose [content] cannot be read. *)
Definition broken_message : message :=
  MsgObject (AttrRaises (ValueError "content unavailable")).

Definition answer : message :=
  MsgObject (AttrValue (PStr "There are 2 devices.")).

(** A message object whose [content] is the empty text, as a request for
    tool calls has it. *)
Definition tool_request : message := MsgObject (AttrValue (PStr "")).

(** A message object without the attribute [content]. *)
Definition bare_message : message := MsgObject AttrMissing.

(** A stream without events. *)
Definition silent_graph : list message -> stream :=
  fun _ => mkStream [] None.

(** A stream of the state after each step, the last ending in [m]. *)
Definition graph_ending_in (m : message) : list message -> stream :=
  fun msgs => mkStream [Some msgs; Some (msgs ++ [m])] None.

(** A stream whose second event has an empty list of messages. *)
Definition empty_event_graph : list message -> stream :=
  fun msgs => mkStream [Some msgs; Some []; Some (msgs ++ [answer])] None.

(** A stream that yields an answer and then fails. *)
Definition failing_stream_graph : list message -> stream :=
  fun msgs => mkStream [Some (msgs ++ [answer])] (Some connection_reset).

(** A stream in which reading the content is interrupted. *)
Definition interrupted_graph : list message -> stream :=
  fun msgs => mkStream [Some (msgs ++ [MsgObject (AttrRaises KeyboardInterrupt)])] None.

Definition session_with (t : list message)
    : session_state * gmap loc (list message) :=
  (mkSession (Some 0%nat), {[ 0%nat := t ]}).

(** A stream with one event, ending in the broken message. *)
Definition failing_graph : list message -> stream :=
  fun msgs => mkStream [Some (msgs ++ [broken_message])] None.

(** A stream whose first event ends in the broken message and whose
    second event ends in a readable answer. *)
Definition recovering_graph : list message -> stream :=
  fun msgs => mkStream [Some (msgs ++ [broken_message]);
                        Some (msgs ++ [broken_message; answer])] None.

(** A server whose every page holds one device. *)
Definition endless_server : nat -> request -> outcome :=
  fun _ _ => page [device "loop-1"].

(** A first body that is an array instead of an object. *)
Definition array_body_server : nat -> request -> outcome :=
  scripted [Responds (json_response (PList [device "core-1"]))] (page []).

(** A first body whose field [response] holds a text. *)
Definition text_field_server : nat -> request -> outcome :=
  scripted [Responds (json_response (PDict [("response", PStr "ok")]))] (page []).

(** A first body without the field [response]. *)
Definition no_field_server : nat -> request -> outcome :=
  scripted [page [device "core-1"];
            Responds (json_response (PDict [("version", PStr "1.0")]))] (page []).

(** The user interrupts the first request. *)
Definition interrupted_server : nat -> request -> outcome :=
  scripted [Fails KeyboardInterrupt] (page []).

Definition token_missing : response :=
  json_response (PDict [("version", PStr "1.0")]).

(** An inventory without devices. *)
Definition empty_inventory_server : nat -> request -> outcome :=
  scripted [] (page []).

End Fixture.

(** ** Vocabulary of the statements *)

(** The outcome is a response whose body is an object with the list
    [records] under the key [response]. *)
Definition carries (o : outcome) (records : list pyval) : Prop :=
  exists r entries,
    o = Responds r /\ json r = Some (PDict entries) /\
    assoc "response" entries = Some (PList records).

(** The requests of [n] successive pages, the first at [offset]. *)
Fixpoint requests_from (g : globals) (token : string) (offset : Z) (n : nat)
    : list request :=
  match n with
  | O => []
  | S n' => inventory_request g token offset :: requests_from g token (offset + limit) n'
  end.

(** The server answers the successive page requests, the first of which is
    call number [k] at [offset], with the pages of [pages]. *)
Definition serves (http : nat -> request -> outcome) (g : globals) (token : string)
    (k : nat) (offset : Z) (pages : list (list pyval)) : Prop :=
  forall (i : nat) (p : list pyval),
    pages !! i = Some p ->
    carries (http (k + i)%nat (inventory_request g token (offset + limit * Z.of_nat i))) p.

(** The number of pages that hold exactly [limit] records. *)
Definition full_pages (pages : list (list pyval)) : nat :=
  length (filter (fun p => Z.of_nat (length p) = limit) pages).

Definition has_records (p : list pyval) : bool :=
  match p with
  | [] => false
  | _ :: _ => true
  end.

(** The number of pages that hold at least one record. *)
Definition non_empty_pages (pages : list (list pyval)) : nat :=
  length (List.filter has_records pages).

(** The property of the final request as the specification words it: the
    call returns all records, and its last request is at offset
    1 + 500 x (number of full pages). *)
Definition final_offset_counts_full_pages (http : nat -> request -> outcome)
    (fuel : nat) (g : globals) (token : string) (pages : list (list pyval)) : Prop :=
  exists run,
    get_device_inventory http fuel g token = Some run /\
    returned run = Return (concat pages) /\
    last (sent run) =
      Some (inventory_request g token (1 + limit * Z.of_nat (full_pages pages))).

(** The outcome is a response whose body is an object with the value [v]
    under the key [response]. *)
Definition carries_value (o : outcome) (v : pyval) : Prop :=
  exists r entries,
    o = Responds r /\ json r = Some (PDict entries) /\
    assoc "response" entries = Some v.

(** The outcome is a response whose body is an object that has no value,
    or a false one, under the key [response]. *)
Definition carries_nothing (o : outcome) : Prop :=
  exists r entries,
    o = Responds r /\ json r = Some (PDict entries) /\
    match assoc "response" entries with
    | Some v => truthy v = false
    | None => True
    end.

(** The bodies that make a pass of the loop raise, with the exception:
    a body that does not decode, a body that is not an object, and a field
    [response] that is true but cannot be iterated. *)
Inductive malformed : outcome -> exn -> Prop :=
| undecodable (r : response) :
    json r = None -> malformed (Responds r) JSONDecodeError
| not_an_object (r : response) (body : pyval) :
    json r = Some body -> (forall entries, body <> PDict entries) ->
    malformed (Responds r) AttributeError
| not_iterable (r : response) (entries : list (string * pyval)) (v : pyval) :
    json r = Some (PDict entries) -> assoc "response" entries = Some v ->
    truthy v = true -> py_iter v = Raise TypeError ->
    malformed (Responds r) TypeError.

(** The messages whose content cannot be found: a dict without the key,
    an object without the attribute, and an object whose attribute raises
    [AttributeError]. *)
Inductive lacks_content : message -> Prop :=
| lacks_key (entries : list (string * pyval)) :
    assoc "content" entries = None -> lacks_content (MsgDict entries)
| lacks_attribute : lacks_content (MsgObject AttrMissing)
| attribute_error : lacks_content (MsgObject (AttrRaises AttributeError)).

(** The messages a turn appends. *)
Inductive turn_message : message -> Prop :=
| turn_user (user_input : string) : turn_message (user_message user_input)
| turn_assistant (final_response : pyval) :
    turn_message (assistant_message final_response).

(** The messages [display_chat_history] passes over: an object, and a dict
    whose role is neither [user] nor [assistant]. *)
Definition not_shown (m : message) : Prop :=
  match m with
  | MsgDict entries => has_role "user" entries = false /\ has_role "assistant" entries = false
  | MsgObject _ => True
  end.

(** Every character of the text is white space. *)
Definition blank (s : string) : bool :=
  forallb py_isspace (list_ascii_of_string s).

(** The turn ends normally and the message it leaves at the end of the
    transcript is the assistant message with content [expected]. *)
Definition turn_response_is (expected : pyval) (graph : list message -> stream)
    (user_input : string) (st : session_state) (h : gmap loc (list message)) : Prop :=
  exists h' out,
    process_user_message graph user_input st h = (Return tt, h', out) /\
    read_messages st h' ≫= last = Some (assistant_message expected).

(** ** Strings *)

Lemma prefix_refl (s : string) : String.prefix s s = true.
Proof.
  induction s as [|a s IH]; simpl; [reflexivity|].
  destruct (ascii_dec a a) as [_|ne]; [exact IH | contradiction].
Qed.

Lemma str_contains_prefix (needle hay : string) :
  String.prefix needle hay = true -> str_contains needle hay = true.
Proof. intros H. destruct hay; cbn [str_contains]; rewrite H; reflexivity. Qed.

Lemma str_contains_append (before needle : string) :
  str_contains needle (before +:+ needle) = true.
Proof.
  induction before as [|a before IH].
  - apply str_contains_prefix, prefix_refl.
  - change (String a before +:+ needle) with (String a (before +:+ needle)).
    cbn [str_contains]. rewrite IH. apply orb_true_r.
Qed.

(** ** One page *)

Section PageFacts.

Variable http : nat -> request -> outcome.

Lemma read_page_records (o : outcome) (records : list pyval) :
  carries o records -> records <> [] ->
  read_page o = Return (Some records).
Proof.
  intros (r & entries & -> & Hj & Ha) Hne.
  unfold read_page, response_json. rewrite Hj. simpl. rewrite Ha. simpl.
  destruct records; [contradiction | reflexivity].
Qed.

Lemma read_page_empty (o : outcome) :
  carries o [] -> read_page o = Return None.
Proof.
  intros (r & entries & -> & Hj & Ha).
  unfold read_page, response_json. rewrite Hj. simpl. rewrite Ha. reflexivity.
Qed.

Lemma serves_head g token k offset p pages :
  serves http g token k offset (p :: pages) ->
  carries (http k (inventory_request g token offset)) p.
Proof.
  intros H. specialize (H 0%nat p eq_refl).
  rewrite Nat.add_0_r in H. replace (offset + limit * Z.of_nat 0) with offset in H by lia.
  exact H.
Qed.

Lemma serves_tail g token k offset p pages :
  serves http g token k offset (p :: pages) ->
  serves http g token (S k) (offset + limit) pages.
Proof.
  intros H i q Hq. specialize (H (S i) q Hq).
  replace (S k + i)%nat with (k + S i)%nat by lia.
  replace (offset + limit + limit * Z.of_nat i) with (offset + limit * Z.of_nat (S i)) by lia.
  exact H.
Qed.

Lemma serves_app_l g token k offset pages more :
  serves http g token k offset (pages ++ more) ->
  serves http g token k offset pages.
Proof.
  intros H i q Hq. apply H. apply lookup_app_l_Some. exact Hq.
Qed.

Lemma serves_after g token k offset pages p :
  serves http g token k offset (pages ++ [p]) ->
  carries (http (k + length pages)%nat
             (inventory_request g token (offset + limit * Z.of_nat (length pages)))) p.
Proof.
  intros H. apply H. rewrite lookup_app_r by lia.
  rewrite Nat.sub_diag. reflexivity.
Qed.

(** The loop walks through a run of non-empty pages, adding each one to
    the list and moving the offset by [limit]. *)
Lemma pagination_pages g token (pages : list (list pyval)) :
  Forall (fun p => p <> []) pages ->
  forall fuel issued offset device_list,
    serves http g token (length issued) offset pages ->
    pagination http (length pages + fuel) g token issued offset device_list =
    pagination http fuel g token
      (issued ++ requests_from g token offset (length pages))
      (offset + limit * Z.of_nat (length pages))
      (device_list ++ concat pages).
Proof.
  induction 1 as [|p pages Hp _ IH]; intros fuel issued offset device_list Hs.
  - simpl. rewrite !app_nil_r. f_equal. lia.
  - cbn [length Nat.add pagination].
    rewrite (read_page_records _ p (serves_head _ _ _ _ _ _ Hs) Hp).
    rewrite IH.
    + cbn [requests_from concat]. rewrite <- !app_assoc. simpl.
      f_equal. lia.
    + rewrite length_app. simpl. replace (length issued + 1)%nat with (S (length issued)) by lia.
      eapply serves_tail. exact Hs.
Qed.

Lemma length_requests_from g token offset n :
  length (requests_from g token offset n) = n.
Proof. revert offset. induction n; intros; simpl; [reflexivity | rewrite IHn; reflexivity]. Qed.

Lemma requests_from_snoc g token offset n :
  requests_from g token offset (S n) =
  requests_from g token offset n ++
    [inventory_request g token (offset + limit * Z.of_nat n)].
Proof.
  revert offset. induction n as [|n IH]; intros offset.
  - simpl. f_equal. f_equal. lia.
  - change (requests_from g token offset (S (S n)))
      with (inventory_request g token offset :: requests_from g token (offset + limit) (S n)).
    rewrite IH. simpl. f_equal. f_equal. f_equal. f_equal. lia.
Qed.

End PageFacts.

(** ** Inventory *)

Section Inventory.

Variable http : nat -> request -> outcome.
Variables (g : globals) (token : string).

Lemma full_page_has_records (p : list pyval) :
  Z.of_nat (length p) = limit -> p <> [].
Proof. intros H ->. simpl in H. unfold limit in H. lia. Qed.

Lemma non_empty_pages_full (full : list (list pyval)) :
  Forall (fun p => Z.of_nat (length p) = limit) full ->
  non_empty_pages full = length full.
Proof.
  unfold non_empty_pages. induction 1 as [|p full Hp _ IH]; simpl; [reflexivity|].
  destruct p; [exfalso; exact (full_page_has_records [] Hp eq_refl)|].
  simpl. f_equal. exact IH.
Qed.

Lemma non_empty_pages_app (xs ys : list (list pyval)) :
  non_empty_pages (xs ++ ys) = (non_empty_pages xs + non_empty_pages ys)%nat.
Proof. unfold non_empty_pages. rewrite List.filter_app, length_app. reflexivity. Qed.

(** A run of non-empty pages followed by an empty one: the loop keeps all
    of them and leaves by [break] at the empty page. *)
Lemma pagination_until_empty (pages : list (list pyval)) (fuel : nat) :
  Forall (fun p => p <> []) pages ->
  serves http g token 0 1 (pages ++ [[]]) ->
  (length pages < fuel)%nat ->
  get_device_inventory http fuel g token =
    Some (mkRun (Return (concat pages))
                (requests_from g token 1 (S (length pages))) []).
Proof.
  intros Hne Hs Hfuel.
  replace fuel with (length pages + S (fuel - length pages - 1))%nat by lia.
  unfold get_device_inventory.
  rewrite (pagination_pages http g token pages Hne); [|eapply serves_app_l; exact Hs].
  cbn [pagination app length].
  rewrite length_requests_from.
  pose proof (serves_after http g token 0 1 pages [] Hs) as Hlast.
  change (0 + length pages)%nat with (length pages) in Hlast.
  rewrite (read_page_empty _ Hlast), requests_from_snoc. reflexivity.
Qed.

(** A run of non-empty pages followed by a failing pass. *)
Lemma pagination_until_failure (pages : list (list pyval)) (e : exn) (fuel : nat) :
  Forall (fun p => p <> []) pages ->
  serves http g token 0 1 pages ->
  read_page (http (length pages)
               (inventory_request g token (1 + limit * Z.of_nat (length pages))))
    = Raise e ->
  (length pages < fuel)%nat ->
  pagination http fuel g token [] 1 [] =
    Some (Raised e, concat pages, requests_from g token 1 (S (length pages))).
Proof.
  intros Hne Hs He Hfuel.
  replace fuel with (length pages + S (fuel - length pages - 1))%nat by lia.
  rewrite (pagination_pages http g token pages Hne _ [] 1 [] Hs).
  cbn [pagination app length].
  rewrite length_requests_from, He, requests_from_snoc. reflexivity.
Qed.

(** Whatever the server does, the only exceptions that leave the call
    are those [except Exception] does not match. *)
Lemma inventory_propagates_only_base (fuel : nat) (run : inventory_run) (e : exn) :
  get_device_inventory http fuel g token = Some run ->
  returned run = Raise e ->
  is_Exception e = false.
Proof.
  unfold get_device_inventory.
  destruct (pagination http fuel g token [] 1 []) as [[[[|e'] dl] issued]|];
    [| |discriminate].
  - intros [= <-]. discriminate.
  - destruct (is_Exception e') eqn:E; intros [= <-]; simpl; [discriminate|].
    intros [= <-]. exact E.
Qed.

End Inventory.

Section FullPages.

Lemma full_pages_all (full : list (list pyval)) :
  Forall (fun p => Z.of_nat (length p) = limit) full ->
  full_pages full = length full.
Proof.
  unfold full_pages. induction 1 as [|p full Hp _ IH]; [reflexivity|].
  rewrite filter_cons_True by exact Hp. simpl. f_equal. exact IH.
Qed.

Lemma full_pages_snoc_short (full : list (list pyval)) (last_page : list pyval) :
  Forall (fun p => Z.of_nat (length p) = limit) full ->
  Z.of_nat (length last_page) < limit ->
  full_pages (full ++ [last_page]) = length full.
Proof.
  intros Hfull Hshort. unfold full_pages.
  rewrite filter_app, length_app, filter_cons_False by lia.
  rewrite filter_nil. simpl. rewrite Nat.add_0_r. exact (full_pages_all full Hfull).
Qed.

End FullPages.

(** ** The claims about [get_device_inventory] *)

(** C1, as amended.  The pages before the last hold exactly 500 records and
    the last holds fewer; the request after a non-empty last page is
    answered by an empty page.  Then [get_device_inventory] returns the
    records of all pages in server order and prints nothing; its requests
    start at offset 1 and advance by 500, one per non-empty page and a
    final one, so the final request is at offset
    1 + 500 x (number of non-empty pages).  That number is the number of
    full pages when the last page is empty and one more when it is not. *)
Theorem inventory_concatenates_pages
    (http : nat -> request -> outcome) (g : globals) (token : string)
    (full : list (list pyval)) (last_page : list pyval) (fuel : nat) :
  Forall (fun p => Z.of_nat (length p) = limit) full ->
  Z.of_nat (length last_page) < limit ->
  serves http g token 0 1 (full ++ [last_page]) ->
  (last_page <> [] ->
   carries (http (S (length full))
              (inventory_request g token (1 + limit * Z.of_nat (S (length full))))) []) ->
  (length full + 1 < fuel)%nat ->
  let pages := full ++ [last_page] in
  exists run,
    get_device_inventory http fuel g token = Some run /\
    returned run = Return (concat pages) /\
    printed run = [] /\
    sent run = requests_from g token 1 (S (non_empty_pages pages)) /\
    last (sent run) =
      Some (inventory_request g token (1 + limit * Z.of_nat (non_empty_pages pages))) /\
    non_empty_pages pages =
      (full_pages pages + if has_records last_page then 1 else 0)%nat.
Proof.
  intros Hfull Hshort Hs Hnext Hfuel pages. subst pages.
  assert (Hfne : Forall (fun p : list pyval => p <> []) full).
  { eapply Forall_impl; [exact Hfull|]. intros p Hp. exact (full_page_has_records p Hp). }
  assert (Hcount : non_empty_pages (full ++ [last_page]) =
                   (length full + if has_records last_page then 1 else 0)%nat).
  { rewrite non_empty_pages_app, (non_empty_pages_full full Hfull).
    unfold non_empty_pages. simpl. destruct (has_records last_page); reflexivity. }
  assert (Hrun : get_device_inventory http fuel g token =
                 Some (mkRun (Return (concat (full ++ [last_page])))
                         (requests_from g token 1 (S (non_empty_pages (full ++ [last_page])))) [])).
  { rewrite Hcount. destruct last_page as [|d rest] eqn:Elast.
    - simpl. rewrite Nat.add_0_r.
      rewrite concat_app. simpl. rewrite app_nil_r.
      apply pagination_until_empty; [exact Hfne | exact Hs | lia].
    - simpl.
      replace (length full + 1)%nat with (length (full ++ [d :: rest]))
        by (rewrite length_app; reflexivity).
      apply pagination_until_empty.
      + apply Forall_app. split; [exact Hfne|]. constructor; [discriminate | constructor].
      + intros i p Hp.
        destruct (decide (i < length (full ++ [d :: rest]))%nat) as [Hlt|Hge].
        * apply Hs. rewrite lookup_app_l in Hp by exact Hlt. exact Hp.
        * rewrite lookup_app_r in Hp by lia.
          rewrite length_app in Hp, Hge. simpl in Hp, Hge.
          assert (i = S (length full)) as -> by
            (destruct (i - (length full + 1))%nat eqn:E; [lia | destruct n; discriminate]).
          replace (S (length full) - (length full + 1))%nat with 0%nat in Hp by lia.
          injection Hp as <-. apply Hnext. discriminate.
      + rewrite length_app. simpl. lia. }
  eexists. split; [exact Hrun|]. cbn [returned printed sent].
  repeat split.
  - rewrite requests_from_snoc. apply last_snoc.
  - rewrite Hcount.
    rewrite (full_pages_snoc_short full last_page Hfull Hshort). reflexivity.
Qed.

(** C1, the final request as the specification words it, refuted: a
    single page with one record (no full page, a short last page) is
    followed by a second request, at offset 501 and not at offset 1. *)
Lemma single_short_page_final_offset :
  let pages := [[Fixture.device "d1"]] in
  Z.of_nat (length [Fixture.device "d1"]) < limit /\
  full_pages pages = 0%nat /\
  serves Fixture.one_record_server Fixture.sample_globals "tok" 0 1 (pages ++ [[]]) /\
  (exists run,
     get_device_inventory Fixture.one_record_server 2 Fixture.sample_globals "tok" = Some run /\
     returned run = Return (concat pages) /\
     last (sent run) = Some (inventory_request Fixture.sample_globals "tok" 501)) /\
  forall fuel,
    ~ final_offset_counts_full_pages Fixture.one_record_server fuel
        Fixture.sample_globals "tok" pages.
Proof.
  cbv zeta. split; [vm_compute; reflexivity|]. split; [vm_compute; reflexivity|].
  split; [|split].
  - intros i p Hp. destruct i as [|[|i]]; simpl in Hp; try discriminate;
      injection Hp as <-; eexists _, _; repeat split; reflexivity.
  - eexists. repeat split; vm_compute; reflexivity.
  - intros fuel (run & Hrun & _ & Hlast).
    destruct fuel as [|[|fuel]]; [discriminate Hrun | discriminate Hrun |].
    vm_compute in Hrun. injection Hrun as <-.
    vm_compute in Hlast. discriminate Hlast.
Qed.

(** C1, as amended, at a server with one full page of 500 records and a
    short page of two: three requests, the last at offset 1001. *)
Lemma inventory_concatenates_pages_witness :
  exists run,
    get_device_inventory Fixture.two_page_server 3 Fixture.sample_globals "tok" = Some run /\
    returned run = Return (concat ([Fixture.full_page] ++ [Fixture.short_page])) /\
    printed run = [] /\
    sent run = requests_from Fixture.sample_globals "tok" 1
                 (S (non_empty_pages ([Fixture.full_page] ++ [Fixture.short_page]))) /\
    last (sent run) =
      Some (inventory_request Fixture.sample_globals "tok"
              (1 + limit * Z.of_nat (non_empty_pages ([Fixture.full_page] ++ [Fixture.short_page])))) /\
    non_empty_pages ([Fixture.full_page] ++ [Fixture.short_page]) =
      (full_pages ([Fixture.full_page] ++ [Fixture.short_page])
       + if has_records Fixture.short_page then 1 else 0)%nat.
Proof.
  apply (inventory_concatenates_pages Fixture.two_page_server Fixture.sample_globals
           "tok" [Fixture.full_page] Fixture.short_page 3).
  - repeat constructor.
  - vm_compute. reflexivity.
  - intros i p Hp. destruct i as [|[|i]]; simpl in Hp; try discriminate;
      injection Hp as <-; eexists _, _; repeat split; reflexivity.
  - intros _. eexists _, _. repeat split; reflexivity.
  - simpl. lia.
Defined.

(** C3.  Every exception that leaves [get_device_inventory] is outside
    [Exception]; and when the pass after a run of fetched pages raises an
    exception of class [Exception] (the request fails, the body does not
    decode, the body has the wrong shape), the call returns the records of
    the pages fetched before it and prints the exception. *)
Theorem pagination_failure_returns_partial
    (http : nat -> request -> outcome) (g : globals) (token : string)
    (pages : list (list pyval)) (e : exn) (fuel : nat) :
  Forall (fun p => p <> []) pages ->
  serves http g token 0 1 pages ->
  read_page (http (length pages)
               (inventory_request g token (1 + limit * Z.of_nat (length pages))))
    = Raise e ->
  is_Exception e = true ->
  (length pages < fuel)%nat ->
  get_device_inventory http fuel g token =
    Some (mkRun (Return (concat pages))
                (requests_from g token 1 (S (length pages))) [e]) /\
  forall fuel' run e',
    get_device_inventory http fuel' g token = Some run ->
    returned run = Raise e' -> is_Exception e' = false.
Proof.
  intros Hne Hs He Hexc Hfuel. split.
  - unfold get_device_inventory.
    rewrite (pagination_until_failure http g token pages e fuel Hne Hs He Hfuel).
    rewrite Hexc. reflexivity.
  - intros fuel' run e'. apply inventory_propagates_only_base.
Qed.

(** C3 at a transport failure on page 2 of 3: the result is page 1. *)
Lemma pagination_failure_returns_partial_witness :
  get_device_inventory Fixture.failing_second_page_server 5 Fixture.sample_globals "tok" =
    Some (mkRun (Return (concat [[Fixture.device "core-1"; Fixture.device "core-2"]]))
                (requests_from Fixture.sample_globals "tok" 1 2)
                [Fixture.connection_reset]) /\
  forall fuel' run e',
    get_device_inventory Fixture.failing_second_page_server fuel' Fixture.sample_globals "tok"
      = Some run ->
    returned run = Raise e' -> is_Exception e' = false.
Proof.
  apply (pagination_failure_returns_partial Fixture.failing_second_page_server
           Fixture.sample_globals "tok"
           [[Fixture.device "core-1"; Fixture.device "core-2"]]
           Fixture.connection_reset 5).
  - repeat constructor; discriminate.
  - intros i p Hp. destruct i as [|i]; simpl in Hp; try discriminate;
      injection Hp as <-; eexists _, _; repeat split; reflexivity.
  - reflexivity.
  - reflexivity.
  - simpl. lia.
Defined.

(** C6.  When the first page holds no records, [get_device_inventory]
    returns the empty list, prints nothing, and has issued exactly one
    request, at offset 1. *)
Theorem empty_inventory_single_request
    (http : nat -> request -> outcome) (g : globals) (token : string) (fuel : nat) :
  carries (http 0%nat (inventory_request g token 1)) [] ->
  (0 < fuel)%nat ->
  exists run,
    get_device_inventory http fuel g token = Some run /\
    returned run = Return [] /\
    printed run = [] /\
    sent run = [inventory_request g token 1] /\
    length (sent run) = 1%nat.
Proof.
  intros Hc Hfuel. destruct fuel as [|fuel]; [lia|].
  unfold get_device_inventory. cbn [pagination length app].
  rewrite (read_page_empty _ Hc). eexists. repeat split.
Qed.

(** C6 at a server whose first page is empty. *)
Lemma empty_inventory_single_request_witness :
  exists run,
    get_device_inventory Fixture.empty_inventory_server 1 Fixture.sample_globals "tok"
      = Some run /\
    returned run = Return [] /\
    printed run = [] /\
    sent run = [inventory_request Fixture.sample_globals "tok" 1] /\
    length (sent run) = 1%nat.
Proof.
  apply (empty_inventory_single_request Fixture.empty_inventory_server
           Fixture.sample_globals "tok" 1).
  - eexists _, _. repeat split; reflexivity.
  - lia.
Defined.

(** ** The claims about [get_auth_token] *)

Section Auth.

Variable http : nat -> request -> outcome.
Variable py_repr : pyval -> string.
Variable g : globals.

(** With the word in the body text the call never returns, and leaves
    the globals as they were. *)
Lemma auth_error_text_raises (response : response) :
  http 0%nat (auth_request g) = Responds response ->
  str_contains "error" (text response) = true ->
  raises (fst (get_auth_token http py_repr g)) /\
  snd (get_auth_token http py_repr g) = g.
Proof.
  intros Hh Ht. unfold get_auth_token. rewrite Hh, Ht. simpl. split; [|reflexivity].
  destruct (response_json response) as [body|e]; simpl; [|exact I].
  destruct (py_subscript body "error"); simpl; exact I.
Qed.

Lemma auth_return_inv (token : pyval) (g' : globals) :
  get_auth_token http py_repr g = (Return token, g') ->
  exists response,
    http 0%nat (auth_request g) = Responds response /\
    str_contains "error" (text response) = false /\
    (body <- response_json response ;; py_subscript body "Token") = Return token /\
    g' = set_TOKEN g token.
Proof.
  unfold get_auth_token.
  destruct (http 0%nat (auth_request g)) as [response|e]; [|discriminate].
  destruct (str_contains "error" (text response)) eqn:Ht.
  - intros H. exfalso.
    destruct (response_json response) as [body|e]; simpl in H; [|discriminate].
    destruct (py_subscript body "error"); simpl in H; discriminate.
  - destruct (body <- response_json response;; py_subscript body "Token") as [tok|e] eqn:Hb;
      [|discriminate].
    intros [= <- <-]. exists response. repeat split; assumption.
Qed.

End Auth.

(** C2.  When the body text has the error indicator and the decoded body
    carries the reason under [error], [get_auth_token] raises [ValueError],
    does not return, leaves the globals unchanged, and the message of the
    error ends with, hence contains, the reason string. *)
Theorem auth_error_carries_reason
    (http : nat -> request -> outcome) (py_repr : pyval -> string) (g : globals)
    (response : response) (entries : list (string * pyval)) (reason : string) :
  http 0%nat (auth_request g) = Responds response ->
  str_contains "error" (text response) = true ->
  json response = Some (PDict entries) ->
  assoc "error" entries = Some (PStr reason) ->
  exists msg,
    get_auth_token http py_repr g = (Raise (ValueError msg), g) /\
    msg = "ERROR: Failed to retrieve Access Token! REASON: " +:+ reason /\
    str_contains reason msg = true.
Proof.
  intros Hh Ht Hj Ha. eexists. split; [|split; [reflexivity|]].
  - unfold get_auth_token, response_json. rewrite Hh, Ht, Hj. simpl. rewrite Ha. reflexivity.
  - apply str_contains_append.
Qed.

(** C2 at the body [{"error": "bad credentials"}]. *)
Lemma auth_error_carries_reason_witness :
  exists msg,
    get_auth_token (Fixture.constant_server Fixture.bad_credentials) Fixture.plain_repr
      Fixture.sample_globals = (Raise (ValueError msg), Fixture.sample_globals) /\
    msg = "ERROR: Failed to retrieve Access Token! REASON: " +:+ "bad credentials" /\
    str_contains "bad credentials" msg = true.
Proof.
  apply (auth_error_carries_reason (Fixture.constant_server Fixture.bad_credentials)
           Fixture.plain_repr Fixture.sample_globals Fixture.bad_credentials
           [("error", PStr "bad credentials")] "bad credentials").
  - reflexivity.
  - vm_compute. reflexivity.
  - reflexivity.
  - reflexivity.
Defined.

(** C4.  The outcome is decided by the substring test on the body text:
    with [error] anywhere in the text the call raises, whatever the decoded
    body holds (a [Token] entry included), and the globals stay as they
    were; a call that returns a token had no [error] in the text; and
    without [error] in the text, a body with a [Token] entry is answered by
    that token. *)
Theorem auth_decided_by_substring
    (http : nat -> request -> outcome) (py_repr : pyval -> string) (g : globals)
    (response : response) :
  http 0%nat (auth_request g) = Responds response ->
  (str_contains "error" (text response) = true ->
   raises (fst (get_auth_token http py_repr g)) /\
   snd (get_auth_token http py_repr g) = g) /\
  (forall token g',
     get_auth_token http py_repr g = (Return token, g') ->
     str_contains "error" (text response) = false) /\
  (forall entries token,
     str_contains "error" (text response) = false ->
     json response = Some (PDict entries) ->
     assoc "Token" entries = Some token ->
     get_auth_token http py_repr g = (Return token, set_TOKEN g token)).
Proof.
  intros Hh. split; [|split].
  - intros Ht. exact (auth_error_text_raises http py_repr g response Hh Ht).
  - intros token g' Hr.
    destruct (auth_return_inv http py_repr g token g' Hr) as (r & Hh' & Ht & _).
    rewrite Hh in Hh'. injection Hh' as <-. exact Ht.
  - intros entries token Ht Hj Ha.
    unfold get_auth_token, response_json. rewrite Hh, Ht, Hj. simpl. rewrite Ha. reflexivity.
Qed.

(** C4 at a body that carries a token whose text contains [error]: the
    call raises [KeyError]. *)
Lemma auth_decided_by_substring_witness :
  get_auth_token (Fixture.constant_server Fixture.token_spelling_error) Fixture.plain_repr
    Fixture.sample_globals = (Raise (KeyError "error"), Fixture.sample_globals) /\
  json Fixture.token_spelling_error = Some (PDict [("Token", PStr "st-error-free-0451")]) /\
  raises (fst (get_auth_token (Fixture.constant_server Fixture.token_spelling_error)
                 Fixture.plain_repr Fixture.sample_globals)).
Proof.
  split; [vm_compute; reflexivity|]. split; [reflexivity|].
  apply (auth_decided_by_substring (Fixture.constant_server Fixture.token_spelling_error)
           Fixture.plain_repr Fixture.sample_globals Fixture.token_spelling_error).
  - reflexivity.
  - vm_compute. reflexivity.
Defined.

(** C7.  A call that returns a token leaves the globals as they were
    except for [_TOKEN], which holds the returned token. *)
Theorem auth_success_sets_token
    (http : nat -> request -> outcome) (py_repr : pyval -> string) (g g' : globals)
    (token : pyval) :
  get_auth_token http py_repr g = (Return token, g') ->
  _TOKEN g' = token /\
  _BASE_URL g' = _BASE_URL g /\
  _USERNAME g' = _USERNAME g /\
  _PASSWORD g' = _PASSWORD g.
Proof.
  intros Hr.
  destruct (auth_return_inv http py_repr g token g' Hr) as (r & _ & _ & _ & ->).
  repeat split.
Qed.

(** C7 at a body with a token. *)
Lemma auth_success_sets_token_witness :
  get_auth_token (Fixture.constant_server Fixture.token_granted) Fixture.plain_repr
    Fixture.sample_globals
  = (Return (PStr "eyJhbGciOiJSUzI1NiJ9"),
     set_TOKEN Fixture.sample_globals (PStr "eyJhbGciOiJSUzI1NiJ9")) /\
  _TOKEN (set_TOKEN Fixture.sample_globals (PStr "eyJhbGciOiJSUzI1NiJ9"))
  = PStr "eyJhbGciOiJSUzI1NiJ9" /\
  _BASE_URL (set_TOKEN Fixture.sample_globals (PStr "eyJhbGciOiJSUzI1NiJ9"))
  = _BASE_URL Fixture.sample_globals /\
  _USERNAME (set_TOKEN Fixture.sample_globals (PStr "eyJhbGciOiJSUzI1NiJ9"))
  = _USERNAME Fixture.sample_globals /\
  _PASSWORD (set_TOKEN Fixture.sample_globals (PStr "eyJhbGciOiJSUzI1NiJ9"))
  = _PASSWORD Fixture.sample_globals.
Proof.
  assert (Hrun : get_auth_token (Fixture.constant_server Fixture.token_granted)
                   Fixture.plain_repr Fixture.sample_globals
                 = (Return (PStr "eyJhbGciOiJSUzI1NiJ9"),
                    set_TOKEN Fixture.sample_globals (PStr "eyJhbGciOiJSUzI1NiJ9")))
    by (vm_compute; reflexivity).
  split; [exact Hrun|].
  exact (auth_success_sets_token (Fixture.constant_server Fixture.token_granted)
           Fixture.plain_repr Fixture.sample_globals _ _ Hrun).
Defined.

(** ** The claim about [get_device_config] *)

Example config_of_edge_1 :
  get_device_config (Fixture.constant_server Fixture.running_config)
    Fixture.sample_globals "tok" "8f2c" = Return (PStr "hostname edge-1").
Proof. reflexivity. Qed.

Example config_transport_failure :
  get_device_config (fun _ _ => Fails Fixture.connection_reset)
    Fixture.sample_globals "tok" "8f2c" = Raise Fixture.connection_reset.
Proof. reflexivity. Qed.

(** C5.  [get_device_config] raises the exception of a failed HTTP call,
    raises when the body does not decode, when it is not an object and
    when it lacks the field [response]; otherwise it returns that field as
    it is.  Nothing is caught, and whatever it returns is the field of the
    response. *)
Theorem config_raises_or_returns_field
    (http : nat -> request -> outcome) (g : globals) (token device_id : string) :
  let o := http 0%nat (config_request g token device_id) in
  (forall e, o = Fails e -> get_device_config http g token device_id = Raise e) /\
  (forall r, o = Responds r -> json r = None ->
     get_device_config http g token device_id = Raise JSONDecodeError) /\
  (forall r body, o = Responds r -> json r = Some body ->
     (forall entries, body <> PDict entries) ->
     get_device_config http g token device_id = Raise TypeError) /\
  (forall r entries, o = Responds r -> json r = Some (PDict entries) ->
     assoc "response" entries = None ->
     get_device_config http g token device_id = Raise (KeyError "response")) /\
  (forall r entries v, o = Responds r -> json r = Some (PDict entries) ->
     assoc "response" entries = Some v ->
     get_device_config http g token device_id = Return v) /\
  (forall v, get_device_config http g token device_id = Return v ->
     exists r entries,
       o = Responds r /\ json r = Some (PDict entries) /\
       assoc "response" entries = Some v).
Proof.
  intros o. unfold get_device_config, response_json. fold o.
  repeat split.
  - intros e ->. reflexivity.
  - intros r -> ->. reflexivity.
  - intros r body -> -> Hnd. destruct body; try reflexivity. exfalso. exact (Hnd _ eq_refl).
  - intros r entries -> -> Ha. simpl. rewrite Ha. reflexivity.
  - intros r entries v -> -> Ha. simpl. rewrite Ha. reflexivity.
  - intros v. destruct o as [r|e]; [|discriminate].
    destruct (json r) as [body|] eqn:Hj; [|discriminate]. simpl.
    destruct body; try discriminate. simpl.
    destruct (assoc "response" entries) as [x|] eqn:Ha; [|discriminate].
    intros [= <-]. exists r, entries. repeat split; assumption.
Qed.

(** ** Start-up *)

(** C8.  When the variable [AI_ACCESS_TOKEN] is set neither in the
    environment nor in the [.env] file, the import of [ai_agent] ends with
    [EnvironmentError], and a run of the script raises it without calling
    [main]. *)
Theorem missing_credential_is_fatal (dotenv environ : gmap string string) :
  environ !! "AI_ACCESS_TOKEN" = None ->
  dotenv !! "AI_ACCESS_TOKEN" = None ->
  ai_agent_module dotenv environ = Raise (EnvironmentError missing_key_message) /\
  forall (A : Type) (main : string -> globals -> result A),
    run_script dotenv environ main = Raise (EnvironmentError missing_key_message).
Proof.
  intros He Hd.
  assert (Hm : ai_agent_module dotenv environ = Raise (EnvironmentError missing_key_message)).
  { unfold ai_agent_module, ai_tools_module, load_dotenv, os_getenv. cbn zeta.
    rewrite (proj2 (lookup_union_None environ dotenv "AI_ACCESS_TOKEN") (conj He Hd)).
    reflexivity. }
  split; [exact Hm|]. intros A main. unfold run_script. rewrite Hm. reflexivity.
Qed.

(** C8 at an environment and a [.env] file that set other variables only. *)
Lemma missing_credential_is_fatal_witness :
  ai_agent_module Fixture.dotenv_without_key Fixture.environ_without_key
    = Raise (EnvironmentError missing_key_message) /\
  forall (A : Type) (main : string -> globals -> result A),
    run_script Fixture.dotenv_without_key Fixture.environ_without_key main
      = Raise (EnvironmentError missing_key_message).
Proof.
  apply (missing_credential_is_fatal Fixture.dotenv_without_key Fixture.environ_without_key).
  - vm_compute. reflexivity.
  - vm_compute. reflexivity.
Defined.

(** ** One user turn *)

Lemma for_events_app (xs ys : list event) (ending : option exn) (final_response : pyval) :
  for_events (xs ++ ys) ending final_response =
  match for_events xs None final_response with
  | (Return v, out) => let '(r, out') := for_events ys ending v in (r, out ++ out')
  | (Raise e, out) => (Raise e, out)
  end.
Proof.
  revert final_response. induction xs as [|x xs IH]; intros final_response.
  - simpl. destruct (for_events ys ending final_response). reflexivity.
  - cbn [app for_events].
    destruct (handle_event x final_response) as [[v|e] o]; [|reflexivity].
    rewrite IH. destruct (for_events xs None v) as [[v'|e'] o']; [|reflexivity].
    destruct (for_events ys ending v') as [r o'']. rewrite app_assoc. reflexivity.
Qed.

Lemma for_events_no_messages (evs : list event) (final_response : pyval) :
  Forall (fun ev => ev = None) evs ->
  for_events evs None final_response = (Return final_response, []).
Proof.
  induction 1 as [|ev evs -> _ IH]; [reflexivity|].
  simpl. rewrite IH. reflexivity.
Qed.

Lemma handle_event_failure (msgs : list message) (m : message) (e : exn)
    (final_response : pyval) :
  last msgs = Some m -> extract_content m = Raise e -> is_Exception e = true ->
  handle_event (Some msgs) final_response
    = (Return placeholder, [Thinking m; ErrorProcessing e]).
Proof.
  intros Hl Hx He. unfold handle_event, last_message. rewrite Hl, Hx, He. reflexivity.
Qed.

Section Transcript.

Variable graph : list message -> stream.

Lemma read_list_append (st : session_state) (h : gmap loc (list message))
    (r : loc) (t : list message) (m : message) :
  messages st = Some r -> h !! r = Some t ->
  list_append h r m !! r = Some (t ++ [m]).
Proof.
  intros _ Hh. unfold list_append. rewrite lookup_alter_eq, Hh. reflexivity.
Qed.

Lemma read_foldl_append (h : gmap loc (list message)) (r : loc)
    (t msgs : list message) :
  h !! r = Some t ->
  foldl (fun h m => list_append h r m) h msgs !! r = Some (t ++ msgs).
Proof.
  revert h t. induction msgs as [|m msgs IH]; intros h t Hh; simpl.
  - rewrite app_nil_r. exact Hh.
  - rewrite (IH _ (t ++ [m])).
    + rewrite <- app_assoc. reflexivity.
    + unfold list_append. rewrite lookup_alter_eq, Hh. reflexivity.
Qed.

(** A turn leaves the list object of the transcript with the user
    message added, and then at most the assistant message. *)
Lemma turn_extends_transcript (user_input : string) (st : session_state)
    (h : gmap loc (list message)) (r : loc) (t : list message) :
  messages st = Some r -> h !! r = Some t ->
  exists suffix,
    (process_user_message graph user_input st h).1.2 !! r
      = Some (t ++ user_message user_input :: suffix) /\
    (suffix = [] \/ exists v, suffix = [assistant_message v]).
Proof.
  intros Hst Hh. unfold process_user_message. rewrite Hst. cbn zeta.
  pose proof (read_list_append st h r t (user_message user_input) Hst Hh) as H1.
  destruct (for_events _ _ PNone) as [[v|e] out]; simpl.
  - destruct (truthy v); simpl.
    + exists [assistant_message v]. split; [|right; eauto].
      unfold list_append at 1. rewrite lookup_alter_eq, H1. simpl.
      rewrite <- app_assoc. reflexivity.
    + exists []. split; [exact H1 | left; reflexivity].
  - exists []. split; [exact H1 | left; reflexivity].
Qed.

End Transcript.

(** C9, as the specification words it, refuted.  In a turn whose single
    event ends in a message whose content cannot be read, the response is
    the text of the source, which is not the lower-case text of the
    specification; and in a turn where a later event ends in a readable
    message, the response is that message's content and not the
    placeholder. *)
Lemma placeholder_not_always_the_response :
  extract_content Fixture.broken_message = Raise (ValueError "content unavailable") /\
  turn_response_is (PStr "Error displaying response.") Fixture.failing_graph
    "how many devices?" Fixture.new_session.1 Fixture.new_session.2 /\
  ~ turn_response_is (PStr "error displaying response") Fixture.failing_graph
      "how many devices?" Fixture.new_session.1 Fixture.new_session.2 /\
  turn_response_is (PStr "There are 2 devices.") Fixture.recovering_graph
    "how many devices?" Fixture.new_session.1 Fixture.new_session.2 /\
  ~ turn_response_is placeholder Fixture.recovering_graph
      "how many devices?" Fixture.new_session.1 Fixture.new_session.2.
Proof.
  split; [reflexivity|]. repeat split.
  - eexists _, _. split; vm_compute; reflexivity.
  - intros (h' & out & Hrun & Hlast).
    vm_compute in Hrun. injection Hrun as <- <-.
    vm_compute in Hlast. discriminate Hlast.
  - eexists _, _. split; vm_compute; reflexivity.
  - intros (h' & out & Hrun & Hlast).
    vm_compute in Hrun. injection Hrun as <- <-.
    vm_compute in Hlast. discriminate Hlast.
Qed.

(** C9, as amended.  When reading the content of an event's last message
    raises an exception of class [Exception], the exception is caught: the
    event prints the message and the error, [final_response] becomes
    ["Error displaying response."], and the loop goes on with the events
    that follow.  When no later event carries messages, the turn ends
    normally and appends the assistant message with that text after the
    user message. *)
Theorem extraction_failure_gives_placeholder
    (graph : list message -> stream) (user_input : string)
    (st : session_state) (h : gmap loc (list message)) (r : loc) (t : list message)
    (before after : list event) (msgs : list message) (m : message) (e : exn)
    (v : pyval) (out : list line) :
  messages st = Some r ->
  h !! r = Some t ->
  graph (t ++ [user_message user_input]) = mkStream (before ++ Some msgs :: after) None ->
  for_events before None PNone = (Return v, out) ->
  Forall (fun ev => ev = None) after ->
  last msgs = Some m ->
  extract_content m = Raise e ->
  is_Exception e = true ->
  (forall rest ending final_response,
     for_events (Some msgs :: rest) ending final_response =
     let '(res, out') := for_events rest ending placeholder in
     (res, [Thinking m; ErrorProcessing e] ++ out')) /\
  placeholder = PStr "Error displaying response." /\
  exists h',
    process_user_message graph user_input st h
      = (Return tt, h', out ++ [Thinking m; ErrorProcessing e]) /\
    read_messages st h'
      = Some (t ++ [user_message user_input; assistant_message placeholder]).
Proof.
  intros Hst Hh Hg Hbefore Hafter Hl Hx He.
  pose proof (handle_event_failure msgs m e) as Hev.
  split; [|split; [reflexivity|]].
  - intros rest ending final_response. cbn [for_events].
    rewrite (Hev final_response Hl Hx He). reflexivity.
  - pose proof (read_list_append st h r t (user_message user_input) Hst Hh) as H1.
    unfold process_user_message. rewrite Hst. cbn zeta.
    rewrite H1. cbn [from_option id]. rewrite Hg. cbn [events ending].
    rewrite for_events_app, Hbefore. cbn [for_events].
    rewrite (Hev v Hl Hx He), (for_events_no_messages after placeholder Hafter).
    cbn [truthy placeholder String.eqb negb app]. simpl.
    eexists. split; [reflexivity|].
    unfold read_messages. rewrite Hst. simpl.
    unfold list_append at 1. rewrite lookup_alter_eq, H1. simpl.
    rewrite <- app_assoc. reflexivity.
Qed.

(** C9, as amended, at a stream of one event that ends in a message whose
    content cannot be read. *)
Lemma extraction_failure_gives_placeholder_witness :
  (forall rest ending final_response,
     for_events (Some ([user_message "how many devices?"] ++ [Fixture.broken_message]) :: rest)
       ending final_response =
     let '(res, out') := for_events rest ending placeholder in
     (res, [Thinking Fixture.broken_message;
            ErrorProcessing (ValueError "content unavailable")] ++ out')) /\
  placeholder = PStr "Error displaying response." /\
  exists h',
    process_user_message Fixture.failing_graph "how many devices?"
      Fixture.new_session.1 Fixture.new_session.2
      = (Return tt, h',
         [] ++ [Thinking Fixture.broken_message;
                ErrorProcessing (ValueError "content unavailable")]) /\
    read_messages Fixture.new_session.1 h'
      = Some ([] ++ [user_message "how many devices?"; assistant_message placeholder]).
Proof.
  apply (extraction_failure_gives_placeholder Fixture.failing_graph "how many devices?"
           Fixture.new_session.1 Fixture.new_session.2 0%nat [] [] []
           ([user_message "how many devices?"] ++ [Fixture.broken_message])
           Fixture.broken_message (ValueError "content unavailable") PNone []).
  - vm_compute. reflexivity.
  - vm_compute. reflexivity.
  - reflexivity.
  - reflexivity.
  - constructor.
  - reflexivity.
  - reflexivity.
  - reflexivity.
Defined.

(** C10.  In a new session the transcript is empty; after appending any
    number of messages, reading the transcript gives exactly these
    messages in the order of the appends; and a turn that follows keeps
    them at the front in that order, adding the user message and then at
    most one assistant message. *)
Theorem transcript_round_trip
    (graph : list message -> stream) (st0 : session_state)
    (h0 : gmap loc (list message)) (N : nat) (msgs : list message)
    (user_input : string) :
  messages st0 = None ->
  length msgs = N ->
  let st := (initialize_session_state st0 h0).1 in
  let h := (initialize_session_state st0 h0).2 in
  exists r,
    messages st = Some r /\
    read_messages st h = Some [] /\
    let h1 := foldl (fun h m => list_append h r m) h msgs in
    read_messages st h1 = Some msgs /\
    (exists read, read_messages st h1 = Some read /\ length read = N) /\
    exists suffix,
      read_messages st (process_user_message graph user_input st h1).1.2
        = Some (msgs ++ user_message user_input :: suffix) /\
      (suffix = [] \/ exists v, suffix = [assistant_message v]).
Proof.
  intros Hnone Hlen. unfold initialize_session_state. rewrite Hnone. cbn zeta. simpl.
  set (r := fresh (dom h0)).
  assert (H0 : <[r := []]> h0 !! r = Some ([] : list message)) by apply lookup_insert_eq.
  pose proof (read_foldl_append (<[r := []]> h0) r [] msgs H0) as Hread. simpl in Hread.
  exists r. split; [reflexivity|]. split; [exact H0|]. split; [exact Hread|].
  split; [exists msgs; split; [exact Hread | exact Hlen]|].
  exact (turn_extends_transcript graph user_input (mkSession (Some r)) _ r msgs
           eq_refl Hread).
Qed.

(** C10 at a new session, three appended messages and a turn whose stream
    ends in a readable answer. *)
Lemma transcript_round_trip_witness :
  let msgs := [user_message "hello"; assistant_message (PStr "Hi."); user_message "list devices"] in
  let st := (initialize_session_state (mkSession None) ∅).1 in
  let h := (initialize_session_state (mkSession None) ∅).2 in
  exists r,
    messages st = Some r /\
    read_messages st h = Some [] /\
    let h1 := foldl (fun h m => list_append h r m) h msgs in
    read_messages st h1 = Some msgs /\
    (exists read, read_messages st h1 = Some read /\ length read = 3%nat) /\
    exists suffix,
      read_messages st
        (process_user_message Fixture.recovering_graph "how many devices?" st h1).1.2
        = Some (msgs ++ user_message "how many devices?" :: suffix) /\
      (suffix = [] \/ exists v, suffix = [assistant_message v]).
Proof.
  apply (transcript_round_trip Fixture.recovering_graph (mkSession None) ∅ 3
           [user_message "hello"; assistant_message (PStr "Hi."); user_message "list devices"]
           "how many devices?").
  - reflexivity.
  - reflexivity.
Defined.


(** * Further properties *)

(** ** [get_auth_token] *)

Lemma auth_raise_keeps_globals (http : nat -> request -> outcome)
    (py_repr : pyval -> string) (g : globals) :
  raises (get_auth_token http py_repr g).1 -> (get_auth_token http py_repr g).2 = g.
Proof.
  unfold get_auth_token.
  destruct (http 0%nat (auth_request g)) as [response|e]; [|reflexivity].
  destruct (str_contains "error" (text response)); [reflexivity|].
  destruct (body <- response_json response;; py_subscript body "Token") as [tok|e] eqn:Hb;
    [|reflexivity].
  simpl. intros [].
Qed.

(** X1.  A call of [get_auth_token] that raises leaves every global,
    [_TOKEN] included, as it was. *)
Theorem auth_failure_keeps_token
    (http : nat -> request -> outcome) (py_repr : pyval -> string) (g : globals) :
  raises (get_auth_token http py_repr g).1 ->
  (get_auth_token http py_repr g).2 = g /\
  _TOKEN (get_auth_token http py_repr g).2 = _TOKEN g.
Proof.
  intros H. rewrite (auth_raise_keeps_globals http py_repr g H). split; reflexivity.
Qed.

Lemma auth_failure_keeps_token_witness :
  (get_auth_token (Fixture.constant_server Fixture.bad_credentials) Fixture.plain_repr
     (set_TOKEN Fixture.sample_globals (PStr "old"))).2
    = set_TOKEN Fixture.sample_globals (PStr "old") /\
  _TOKEN (get_auth_token (Fixture.constant_server Fixture.bad_credentials)
            Fixture.plain_repr (set_TOKEN Fixture.sample_globals (PStr "old"))).2
    = _TOKEN (set_TOKEN Fixture.sample_globals (PStr "old")).
Proof.
  apply (auth_failure_keeps_token (Fixture.constant_server Fixture.bad_credentials)
           Fixture.plain_repr (set_TOKEN Fixture.sample_globals (PStr "old"))).
  vm_compute. exact I.
Defined.

(** X2.  The failures of [get_auth_token] other than a reported error: a
    failed HTTP call raises its own exception; a body that does not decode
    raises the decoding error; without [error] in the text, a body that is
    no object raises [TypeError] and an object without [Token] raises
    [KeyError] for that key; with [error] in the text but no such key in
    the object, [KeyError] for [error]. *)
Theorem auth_other_failures
    (http : nat -> request -> outcome) (py_repr : pyval -> string) (g : globals) :
  (forall e, http 0%nat (auth_request g) = Fails e ->
     get_auth_token http py_repr g = (Raise e, g)) /\
  (forall r, http 0%nat (auth_request g) = Responds r -> json r = None ->
     get_auth_token http py_repr g = (Raise JSONDecodeError, g)) /\
  (forall r body, http 0%nat (auth_request g) = Responds r ->
     json r = Some body -> (forall entries, body <> PDict entries) ->
     get_auth_token http py_repr g = (Raise TypeError, g)) /\
  (forall r entries, http 0%nat (auth_request g) = Responds r ->
     str_contains "error" (text r) = false ->
     json r = Some (PDict entries) -> assoc "Token" entries = None ->
     get_auth_token http py_repr g = (Raise (KeyError "Token"), g)) /\
  (forall r entries, http 0%nat (auth_request g) = Responds r ->
     str_contains "error" (text r) = true ->
     json r = Some (PDict entries) -> assoc "error" entries = None ->
     get_auth_token http py_repr g = (Raise (KeyError "error"), g)).
Proof.
  unfold get_auth_token, response_json. repeat split.
  - intros e ->. reflexivity.
  - intros r -> ->. destruct (str_contains "error" (text r)); reflexivity.
  - intros r body -> -> Hb.
    destruct (str_contains "error" (text r)); destruct body; try reflexivity;
      exfalso; exact (Hb _ eq_refl).
  - intros r entries -> -> -> Ha. simpl. rewrite Ha. reflexivity.
  - intros r entries -> -> -> Ha. simpl. rewrite Ha. reflexivity.
Qed.

Example auth_token_missing :
  get_auth_token (Fixture.constant_server Fixture.token_missing) Fixture.plain_repr
    Fixture.sample_globals = (Raise (KeyError "Token"), Fixture.sample_globals).
Proof. vm_compute. reflexivity. Qed.

(** ** [get_device_inventory] *)

Section MoreInventory.

Variable http : nat -> request -> outcome.
Variables (g : globals) (token : string).

Lemma requests_from_app (offset : Z) (n m : nat) :
  requests_from g token offset (n + m) =
  requests_from g token offset n
    ++ requests_from g token (offset + limit * Z.of_nat n) m.
Proof.
  revert offset. induction n as [|n IH]; intros offset.
  - simpl. f_equal. lia.
  - cbn [Nat.add requests_from app]. rewrite IH. do 3 f_equal. lia.
Qed.

(** The requests of the loop are those of successive pages. *)
Lemma pagination_requests (fuel : nat) :
  forall issued offset device_list how device_list' issued',
    pagination http fuel g token issued offset device_list
      = Some (how, device_list', issued') ->
    exists n, issued' = issued ++ requests_from g token offset (S n).
Proof.
  induction fuel as [|fuel IH]; intros issued offset dl how dl' issued'; [discriminate|].
  cbn [pagination].
  destruct (read_page _) as [[items|]|e].
  - intros H. destruct (IH _ _ _ _ _ _ H) as [n ->].
    exists (S n). rewrite <- app_assoc. reflexivity.
  - intros [= <- <- <-]. exists 0%nat. reflexivity.
  - intros [= <- <- <-]. exists 0%nat. reflexivity.
Qed.

(** A server that never sends a page without records keeps the loop
    going. *)
Lemma pagination_endless (fuel : nat) :
  (forall k offset, exists p,
      p <> [] /\ carries (http k (inventory_request g token offset)) p) ->
  forall issued offset device_list,
    pagination http fuel g token issued offset device_list = None.
Proof.
  intros Hall. induction fuel as [|fuel IH]; intros issued offset dl; [reflexivity|].
  cbn [pagination].
  destruct (Hall (length issued) offset) as (p & Hp & Hc).
  rewrite (read_page_records _ p Hc Hp). apply IH.
Qed.

Lemma read_page_nothing (o : outcome) :
  carries_nothing o -> read_page o = Return None.
Proof.
  intros (r & entries & -> & Hj & Ha).
  unfold read_page, response_json. rewrite Hj. cbn [bind py_get].
  destruct (assoc "response" entries) as [v|]; cbn [bind]; [rewrite Ha|]; reflexivity.
Qed.

Lemma read_page_value (o : outcome) (v : pyval) :
  carries_value o v -> truthy v = true ->
  read_page o = (items <- py_iter v ;; Return (Some items)).
Proof.
  intros (r & entries & -> & Hj & Ha) Ht.
  unfold read_page, response_json. rewrite Hj. simpl. rewrite Ha. simpl.
  rewrite Ht. reflexivity.
Qed.

Lemma read_page_malformed (o : outcome) (e : exn) :
  malformed o e -> read_page o = Raise e.
Proof.
  intros [r Hj | r body Hj Hb | r entries v Hj Ha Ht Hi];
    unfold read_page, response_json; rewrite Hj; simpl.
  - reflexivity.
  - destruct body; try reflexivity. exfalso. exact (Hb _ eq_refl).
  - rewrite Ha. simpl. rewrite Ht, Hi. reflexivity.
Qed.

(** A run of non-empty pages followed by a pass that leaves by [break]. *)
Lemma pagination_until_break (pages : list (list pyval)) (fuel : nat) :
  Forall (fun p => p <> []) pages ->
  serves http g token 0 1 pages ->
  read_page (http (length pages)
               (inventory_request g token (1 + limit * Z.of_nat (length pages))))
    = Return None ->
  (length pages < fuel)%nat ->
  pagination http fuel g token [] 1 [] =
    Some (Broke, concat pages, requests_from g token 1 (S (length pages))).
Proof.
  intros Hne Hs He Hfuel.
  replace fuel with (length pages + S (fuel - length pages - 1))%nat by lia.
  rewrite (pagination_pages http g token pages Hne _ [] 1 [] Hs).
  cbn [pagination app length].
  rewrite length_requests_from, He, requests_from_snoc. reflexivity.
Qed.

End MoreInventory.

Lemma requests_from_lookup (g : globals) (token : string) (n : nat) :
  forall (offset : Z) (i : nat) (req : request),
    requests_from g token offset n !! i = Some req ->
    req = inventory_request g token (offset + limit * Z.of_nat i).
Proof.
  induction n as [|n IH]; intros offset i req; [discriminate|].
  destruct i as [|i]; simpl.
  - intros [= <-]. f_equal. lia.
  - intros H. rewrite (IH _ _ _ H). f_equal. lia.
Qed.

(** X3.  Whatever the server answers, a call of [get_device_inventory]
    that ends has issued at least one request, and its [i]-th request
    (from 0) is the GET request for offset 1 + 500 x i, with the caller's
    token in the header [x-auth-token] and without certificate check. *)
Theorem inventory_requests_in_order
    (http : nat -> request -> outcome) (g : globals) (token : string)
    (fuel : nat) (run : inventory_run) :
  get_device_inventory http fuel g token = Some run ->
  (exists n, sent run = requests_from g token 1 (S n)) /\
  forall (i : nat) (req : request),
    sent run !! i = Some req ->
    req = inventory_request g token (1 + limit * Z.of_nat i) /\
    method req = GET /\ verify req = false /\
    headers req !! 0%nat = Some ("x-auth-token", token).
Proof.
  unfold get_device_inventory.
  destruct (pagination http fuel g token [] 1 []) as [[[how dl] issued]|] eqn:Hp;
    [|discriminate].
  destruct (pagination_requests http g token fuel _ _ _ _ _ _ Hp) as [n Hn].
  rewrite app_nil_l in Hn.
  assert (Hsent : sent run = issued ->
          (exists n, sent run = requests_from g token 1 (S n)) /\
          forall (i : nat) (req : request),
            sent run !! i = Some req ->
            req = inventory_request g token (1 + limit * Z.of_nat i) /\
            method req = GET /\ verify req = false /\
            headers req !! 0%nat = Some ("x-auth-token", token)).
  { intros ->. split; [exists n; exact Hn|].
    intros i req Hi. rewrite Hn in Hi.
    rewrite (requests_from_lookup g token _ _ _ _ Hi). repeat split. }
  destruct how as [|e]; [|destruct (is_Exception e)]; intros [= <-]; apply Hsent; reflexivity.
Qed.

Lemma inventory_requests_in_order_witness :
  (exists n,
     sent (mkRun (Return [Fixture.device "core-1"; Fixture.device "core-2"])
             (requests_from Fixture.sample_globals "tok" 1 2) [Fixture.connection_reset])
     = requests_from Fixture.sample_globals "tok" 1 (S n)) /\
  forall (i : nat) (req : request),
    sent (mkRun (Return [Fixture.device "core-1"; Fixture.device "core-2"])
            (requests_from Fixture.sample_globals "tok" 1 2) [Fixture.connection_reset])
      !! i = Some req ->
    req = inventory_request Fixture.sample_globals "tok" (1 + limit * Z.of_nat i) /\
    method req = GET /\ verify req = false /\
    headers req !! 0%nat = Some ("x-auth-token", "tok").
Proof.
  apply (inventory_requests_in_order Fixture.failing_second_page_server
           Fixture.sample_globals "tok" 5).
  reflexivity.
Defined.

(** X4.  The loop has no bound of its own: against a server that answers
    every request with a page that holds records, no number of passes
    completes the call. *)
Theorem inventory_unbounded
    (http : nat -> request -> outcome) (g : globals) (token : string) :
  (forall k offset, exists p,
      p <> [] /\ carries (http k (inventory_request g token offset)) p) ->
  forall fuel, get_device_inventory http fuel g token = None.
Proof.
  intros Hall fuel. unfold get_device_inventory.
  rewrite (pagination_endless http g token fuel Hall). reflexivity.
Qed.

Lemma inventory_unbounded_witness :
  get_device_inventory Fixture.endless_server 1000 Fixture.sample_globals "tok" = None.
Proof.
  refine (inventory_unbounded Fixture.endless_server Fixture.sample_globals "tok" _ 1000%nat).
  intros k offset. exists [Fixture.device "loop-1"]. split; [discriminate|].
  eexists _, _. repeat split; reflexivity.
Defined.

(** X5.  An exception outside [Exception] raised in the loop (an
    interrupt, an exit) is not caught: it leaves the call, the records
    fetched so far are not returned, and nothing is printed. *)
Theorem inventory_interrupt_propagates
    (http : nat -> request -> outcome) (g : globals) (token : string)
    (pages : list (list pyval)) (e : exn) (fuel : nat) :
  Forall (fun p => p <> []) pages ->
  serves http g token 0 1 pages ->
  read_page (http (length pages)
               (inventory_request g token (1 + limit * Z.of_nat (length pages))))
    = Raise e ->
  is_Exception e = false ->
  (length pages < fuel)%nat ->
  get_device_inventory http fuel g token =
    Some (mkRun (Raise e) (requests_from g token 1 (S (length pages))) []).
Proof.
  intros Hne Hs He Hexc Hfuel. unfold get_device_inventory.
  rewrite (pagination_until_failure http g token pages e fuel Hne Hs He Hfuel), Hexc.
  reflexivity.
Qed.

Lemma inventory_interrupt_propagates_witness :
  get_device_inventory Fixture.interrupted_server 3 Fixture.sample_globals "tok" =
    Some (mkRun (Raise KeyboardInterrupt)
            (requests_from Fixture.sample_globals "tok" 1 1) []).
Proof.
  apply (inventory_interrupt_propagates Fixture.interrupted_server
           Fixture.sample_globals "tok" [] KeyboardInterrupt 3).
  - constructor.
  - intros i p Hp. discriminate Hp.
  - reflexivity.
  - reflexivity.
  - simpl. lia.
Defined.

(** X6.  Pagination also ends, without error, at a body that has no field
    [response] or holds a false value there (null, false, 0, an empty
    text, list or object): the records of the pages before are returned. *)
Theorem inventory_stops_without_field
    (http : nat -> request -> outcome) (g : globals) (token : string)
    (pages : list (list pyval)) (fuel : nat) :
  Forall (fun p => p <> []) pages ->
  serves http g token 0 1 pages ->
  carries_nothing (http (length pages)
                     (inventory_request g token (1 + limit * Z.of_nat (length pages)))) ->
  (length pages < fuel)%nat ->
  get_device_inventory http fuel g token =
    Some (mkRun (Return (concat pages)) (requests_from g token 1 (S (length pages))) []).
Proof.
  intros Hne Hs Hn Hfuel. unfold get_device_inventory.
  rewrite (pagination_until_break http g token pages fuel Hne Hs
             (read_page_nothing _ Hn) Hfuel).
  reflexivity.
Qed.

Lemma inventory_stops_without_field_witness :
  get_device_inventory Fixture.no_field_server 4 Fixture.sample_globals "tok" =
    Some (mkRun (Return (concat [[Fixture.device "core-1"]]))
            (requests_from Fixture.sample_globals "tok" 1 2) []).
Proof.
  apply (inventory_stops_without_field Fixture.no_field_server
           Fixture.sample_globals "tok" [[Fixture.device "core-1"]] 4).
  - repeat constructor; discriminate.
  - intros i p Hp. destruct i as [|i]; simpl in Hp; try discriminate;
      injection Hp as <-; eexists _, _; repeat split; reflexivity.
  - eexists _, _. repeat split; reflexivity.
  - simpl. lia.
Defined.

(** X7.  The field [response] is not required to be a list: any true value
    that can be iterated is taken apart by [extend].  A text adds its
    characters, one record each, and an object adds its keys. *)
Theorem inventory_takes_field_apart
    (http : nat -> request -> outcome) (g : globals) (token : string)
    (v : pyval) (items : list pyval) (fuel : nat) :
  carries_value (http 0%nat (inventory_request g token 1)) v ->
  truthy v = true ->
  py_iter v = Return items ->
  carries_nothing (http 1%nat (inventory_request g token (1 + limit))) ->
  (1 < fuel)%nat ->
  get_device_inventory http fuel g token =
    Some (mkRun (Return items) (requests_from g token 1 2) []) /\
  (forall s, v = PStr s ->
     items = map (fun c => PStr (String c EmptyString)) (list_ascii_of_string s)) /\
  (forall d, v = PDict d -> items = map (fun kv => PStr (fst kv)) d).
Proof.
  intros Hv Ht Hi Hn Hfuel. split; [|split].
  - destruct fuel as [|[|fuel]]; [lia | lia |].
    unfold get_device_inventory. cbn [pagination length app].
    rewrite (read_page_value _ v Hv Ht), Hi. cbn [bind length app].
    rewrite (read_page_nothing _ Hn). reflexivity.
  - intros s ->. simpl in Hi. injection Hi as <-. reflexivity.
  - intros d ->. simpl in Hi. injection Hi as <-. reflexivity.
Qed.

Lemma inventory_takes_field_apart_witness :
  get_device_inventory Fixture.text_field_server 2 Fixture.sample_globals "tok" =
    Some (mkRun (Return [PStr "o"; PStr "k"])
            (requests_from Fixture.sample_globals "tok" 1 2) []) /\
  (forall s, PStr "ok" = PStr s ->
     [PStr "o"; PStr "k"]
     = map (fun c => PStr (String c EmptyString)) (list_ascii_of_string s)) /\
  (forall d, PStr "ok" = PDict d -> [PStr "o"; PStr "k"] = map (fun kv => PStr (fst kv)) d).
Proof.
  apply (inventory_takes_field_apart Fixture.text_field_server Fixture.sample_globals
           "tok" (PStr "ok") [PStr "o"; PStr "k"] 2).
  - eexists _, _. repeat split; reflexivity.
  - reflexivity.
  - reflexivity.
  - eexists _, _. repeat split; reflexivity.
  - lia.
Defined.

(** X8.  A malformed body in the loop is swallowed like a failed request:
    a body that does not decode, a body that is not an object, and a field
    [response] that holds a number or [true] raise [JSONDecodeError],
    [AttributeError] and [TypeError]; the call prints the exception and
    returns the records of the pages before. *)
Theorem inventory_swallows_malformed_body
    (http : nat -> request -> outcome) (g : globals) (token : string)
    (pages : list (list pyval)) (e : exn) (fuel : nat) :
  Forall (fun p => p <> []) pages ->
  serves http g token 0 1 pages ->
  malformed (http (length pages)
               (inventory_request g token (1 + limit * Z.of_nat (length pages)))) e ->
  (length pages < fuel)%nat ->
  get_device_inventory http fuel g token =
    Some (mkRun (Return (concat pages)) (requests_from g token 1 (S (length pages))) [e]) /\
  (e = JSONDecodeError \/ e = AttributeError \/ e = TypeError).
Proof.
  intros Hne Hs Hm Hfuel. split.
  - unfold get_device_inventory.
    rewrite (pagination_until_failure http g token pages e fuel Hne Hs
               (read_page_malformed _ e Hm) Hfuel).
    destruct Hm; reflexivity.
  - destruct Hm; auto.
Qed.

Lemma inventory_swallows_malformed_body_witness :
  get_device_inventory Fixture.array_body_server 2 Fixture.sample_globals "tok" =
    Some (mkRun (Return (concat [])) (requests_from Fixture.sample_globals "tok" 1 1)
            [AttributeError]) /\
  (AttributeError = JSONDecodeError \/ AttributeError = AttributeError
   \/ AttributeError = TypeError).
Proof.
  apply (inventory_swallows_malformed_body Fixture.array_body_server
           Fixture.sample_globals "tok" [] AttributeError 2).
  - constructor.
  - intros i p Hp. discriminate Hp.
  - eapply not_an_object; [reflexivity | discriminate].
  - simpl. lia.
Defined.


(** ** Start-up *)

Lemma ai_agent_module_inv (dotenv environ : gmap string string) :
  ai_agent_module dotenv environ =
  match os_getenv (load_dotenv dotenv environ) "AI_ACCESS_TOKEN" with
  | Some key =>
      if String.eqb key "" then Raise (EnvironmentError missing_key_message)
      else Return (key, (ai_tools_module dotenv environ).2)
  | None => Raise (EnvironmentError missing_key_message)
  end.
Proof.
  unfold ai_agent_module, ai_tools_module. cbn zeta.
  destruct (os_getenv (load_dotenv dotenv environ) "AI_ACCESS_TOKEN") as [key|];
    [|reflexivity].
  simpl. destruct (String.eqb key ""); reflexivity.
Qed.

(** X9.  Only the model credential is checked at start-up.  With
    [_BASE_URL] set neither in the environment nor in the [.env] file the
    import succeeds, and the three request URLs are built from the text
    [None] in place of the base URL. *)
Theorem unset_base_url_is_not_fatal
    (dotenv environ : gmap string string) (key : string) :
  os_getenv (load_dotenv dotenv environ) "AI_ACCESS_TOKEN" = Some key ->
  key <> "" ->
  environ !! "_BASE_URL" = None ->
  dotenv !! "_BASE_URL" = None ->
  exists g,
    ai_agent_module dotenv environ = Return (key, g) /\
    _BASE_URL g = None /\
    url (auth_request g) = "None/dna/system/api/v1/auth/token" /\
    (forall token,
       url (inventory_request g token 1)
       = "None/dna/intent/api/v1/network-device?&offset=1&limit=500") /\
    (forall token device_id,
       url (config_request g token device_id)
       = "None/dna/intent/api/v1/network-device/" +:+ device_id +:+ "/config").
Proof.
  intros Hkey Hne He Hd.
  exists (ai_tools_module dotenv environ).2.
  assert (Hb : _BASE_URL (ai_tools_module dotenv environ).2 = None).
  { unfold ai_tools_module, load_dotenv, os_getenv. simpl.
    apply lookup_union_None. split; assumption. }
  split; [|split; [exact Hb|]].
  - rewrite ai_agent_module_inv, Hkey.
    rewrite (proj2 (String.eqb_neq key "") Hne). reflexivity.
  - unfold auth_request, inventory_request, inventory_url, config_request.
    cbn [url]. rewrite Hb. repeat split.
Qed.

Lemma unset_base_url_is_not_fatal_witness :
  exists g,
    ai_agent_module Fixture.dotenv_without_key Fixture.environ_with_key
      = Return ("sk-live-0451", g) /\
    _BASE_URL g = None /\
    url (auth_request g) = "None/dna/system/api/v1/auth/token" /\
    (forall token,
       url (inventory_request g token 1)
       = "None/dna/intent/api/v1/network-device?&offset=1&limit=500") /\
    (forall token device_id,
       url (config_request g token device_id)
       = "None/dna/intent/api/v1/network-device/" +:+ device_id +:+ "/config").
Proof.
  apply (unset_base_url_is_not_fatal Fixture.dotenv_without_key Fixture.environ_with_key
           "sk-live-0451").
  - vm_compute. reflexivity.
  - discriminate.
  - vm_compute. reflexivity.
  - vm_compute. reflexivity.
Defined.

(** X10.  The import of [ai_agent] succeeds exactly when, after the
    [.env] file is loaded, [AI_ACCESS_TOKEN] is set to a text that is not
    empty; [OPENAI_API_KEY] is then that text.  In every other case the
    import raises [EnvironmentError]. *)
Theorem startup_succeeds_iff
    (dotenv environ : gmap string string) (key : string) (g : globals) :
  (ai_agent_module dotenv environ = Return (key, g) <->
   os_getenv (load_dotenv dotenv environ) "AI_ACCESS_TOKEN" = Some key /\
   key <> "" /\ g = (ai_tools_module dotenv environ).2) /\
  (ai_agent_module dotenv environ = Raise (EnvironmentError missing_key_message) \/
   exists key' g', ai_agent_module dotenv environ = Return (key', g')).
Proof.
  rewrite ai_agent_module_inv.
  destruct (os_getenv (load_dotenv dotenv environ) "AI_ACCESS_TOKEN") as [k|].
  - destruct (String.eqb k "") eqn:E.
    + apply String.eqb_eq in E. subst k. split; [|left; reflexivity].
      split; [discriminate|]. intros ([= <-] & Hne & _). contradiction.
    + apply String.eqb_neq in E. split; [|right; eauto].
      split.
      * intros [= <- <-]. auto.
      * intros ([= <-] & _ & ->). reflexivity.
  - split; [|left; reflexivity].
    split; [discriminate|]. intros (H & _). discriminate H.
Qed.

(** X11.  A variable of the environment is not replaced by the [.env]
    file.  So a credential set to the empty text in the environment is
    fatal even when the file holds one, and one set to a text that is not
    empty is the one used, whatever the file says. *)
Theorem environment_wins_over_dotenv
    (dotenv environ : gmap string string) (value : string) :
  environ !! "AI_ACCESS_TOKEN" = Some value ->
  os_getenv (load_dotenv dotenv environ) "AI_ACCESS_TOKEN" = Some value /\
  (value = "" ->
   ai_agent_module dotenv environ = Raise (EnvironmentError missing_key_message)) /\
  (value <> "" ->
   ai_agent_module dotenv environ = Return (value, (ai_tools_module dotenv environ).2)).
Proof.
  intros He.
  assert (Hu : os_getenv (load_dotenv dotenv environ) "AI_ACCESS_TOKEN" = Some value).
  { unfold os_getenv, load_dotenv. apply lookup_union_Some_l. exact He. }
  split; [exact Hu|]. rewrite ai_agent_module_inv, Hu. split.
  - intros ->. reflexivity.
  - intros Hne. rewrite (proj2 (String.eqb_neq value "") Hne). reflexivity.
Qed.

Lemma environment_wins_over_dotenv_witness :
  os_getenv (load_dotenv Fixture.dotenv_with_key Fixture.environ_with_empty_key)
    "AI_ACCESS_TOKEN" = Some "" /\
  ("" = "" ->
   ai_agent_module Fixture.dotenv_with_key Fixture.environ_with_empty_key
   = Raise (EnvironmentError missing_key_message)) /\
  ("" <> "" ->
   ai_agent_module Fixture.dotenv_with_key Fixture.environ_with_empty_key
   = Return ("", (ai_tools_module Fixture.dotenv_with_key
                    Fixture.environ_with_empty_key).2)).
Proof.
  apply (environment_wins_over_dotenv Fixture.dotenv_with_key
           Fixture.environ_with_empty_key "").
  vm_compute. reflexivity.
Defined.


(** ** One user turn *)

Section MoreTurn.

Variable graph : list message -> stream.

(** What a turn does, in terms of what the loop over the events gives. *)
Lemma turn_outcome (user_input : string) (st : session_state)
    (h : gmap loc (list message)) (r : loc) (t : list message)
    (res : result pyval) (out : list line) :
  messages st = Some r -> h !! r = Some t ->
  for_events (events (graph (t ++ [user_message user_input])))
             (ending (graph (t ++ [user_message user_input]))) PNone = (res, out) ->
  exists h',
    process_user_message graph user_input st h
      = (match res with Return _ => Return tt | Raise e => Raise e end, h', out) /\
    read_messages st h'
      = Some (t ++ user_message user_input ::
                match res with
                | Return v => if truthy v then [assistant_message v] else []
                | Raise _ => []
                end).
Proof.
  intros Hst Hh Hfor.
  pose proof (read_list_append st h r t (user_message user_input) Hst Hh) as H1.
  unfold process_user_message, read_messages. rewrite Hst. cbn zeta.
  rewrite H1. cbn [from_option id]. rewrite Hfor.
  destruct res as [v|e].
  - destruct (truthy v); eexists; (split; [reflexivity|]); simpl.
    + unfold list_append at 1. rewrite lookup_alter_eq, H1. simpl.
      rewrite <- app_assoc. reflexivity.
    + exact H1.
  - eexists. split; [reflexivity|]. exact H1.
Qed.

Lemma for_events_ending (evs : list event) (e : exn) (final_response v : pyval)
    (out : list line) :
  for_events evs None final_response = (Return v, out) ->
  for_events evs (Some e) final_response = (Raise e, out).
Proof.
  intros H. rewrite <- (app_nil_r evs), for_events_app, H. simpl.
  rewrite app_nil_r. reflexivity.
Qed.

(** The loop up to and including an event whose last message is read. *)
Lemma for_events_read (before after : list event) (msgs : list message)
    (m : message) (v0 v : pyval) (out : list line) :
  for_events before None PNone = (Return v0, out) ->
  Forall (fun ev => ev = None) after ->
  last msgs = Some m ->
  extract_content m = Return v ->
  for_events (before ++ Some msgs :: after) None PNone = (Return v, out ++ [Thinking m]).
Proof.
  intros Hb Ha Hl Hx. rewrite for_events_app, Hb. cbn [for_events].
  unfold handle_event, last_message. rewrite Hl, Hx.
  rewrite (for_events_no_messages after v Ha). reflexivity.
Qed.

(** The loop up to an event that raises. *)
Lemma for_events_raise (before after : list event) (ending : option exn)
    (ev : event) (e : exn) (v0 : pyval) (out out' : list line) :
  for_events before None PNone = (Return v0, out) ->
  handle_event ev v0 = (Raise e, out') ->
  for_events (before ++ ev :: after) ending PNone = (Raise e, out ++ out').
Proof.
  intros Hb He. rewrite for_events_app, Hb. cbn [for_events]. rewrite He. reflexivity.
Qed.

End MoreTurn.

(** X12.  [initialize_session_state] never clears a transcript: with the
    list present it changes nothing; without it, it adds a new empty list
    and leaves every list of the store as it is; and a second call changes
    nothing. *)
Theorem initialize_keeps_transcript
    (st : session_state) (h : gmap loc (list message)) :
  let st' := (initialize_session_state st h).1 in
  let h' := (initialize_session_state st h).2 in
  initialize_session_state st' h' = (st', h') /\
  (forall r l, h !! r = Some l -> h' !! r = Some l) /\
  (forall r, messages st = Some r -> st' = st /\ h' = h) /\
  (messages st = None -> read_messages st' h' = Some []).
Proof.
  unfold initialize_session_state. destruct st as [[r0|]]; simpl.
  - repeat split; try reflexivity; try tauto. discriminate.
  - repeat split; try discriminate.
    + intros r l Hl. rewrite lookup_insert_ne; [exact Hl|].
      intros <-. pose proof (is_fresh (dom h)) as Hf.
      apply not_elem_of_dom in Hf. rewrite Hf in Hl. discriminate.
    + intros _. unfold read_messages. simpl. apply lookup_insert_eq.
Qed.

(** X13.  When the stream yields no event that carries messages and ends
    normally, the turn prints nothing and appends the user message only. *)
Theorem turn_without_answer
    (graph : list message -> stream) (user_input : string) (st : session_state)
    (h : gmap loc (list message)) (r : loc) (t : list message) :
  messages st = Some r ->
  h !! r = Some t ->
  Forall (fun ev => ev = None) (events (graph (t ++ [user_message user_input]))) ->
  ending (graph (t ++ [user_message user_input])) = None ->
  exists h',
    process_user_message graph user_input st h = (Return tt, h', []) /\
    read_messages st h' = Some (t ++ [user_message user_input]).
Proof.
  intros Hst Hh Hev Hend.
  destruct (turn_outcome graph user_input st h r t (Return PNone) [] Hst Hh) as (h' & Hp & Hr).
  - rewrite Hend. apply for_events_no_messages. exact Hev.
  - exists h'. split; [exact Hp | exact Hr].
Qed.

Lemma turn_without_answer_witness :
  exists h',
    process_user_message Fixture.silent_graph "hello" Fixture.new_session.1
      Fixture.new_session.2 = (Return tt, h', []) /\
    read_messages Fixture.new_session.1 h' = Some ([] ++ [user_message "hello"]).
Proof.
  apply (turn_without_answer Fixture.silent_graph "hello" Fixture.new_session.1
           Fixture.new_session.2 0%nat []).
  - vm_compute. reflexivity.
  - vm_compute. reflexivity.
  - constructor.
  - reflexivity.
Defined.

(** X14.  The answer of a turn is the content of the last message of the
    last event that carries messages: the contents read from earlier
    events are dropped.  It is appended as the assistant message when it
    is true, and not appended when it is false (an empty text, [None]). *)
Theorem turn_answer_is_last_content
    (graph : list message -> stream) (user_input : string) (st : session_state)
    (h : gmap loc (list message)) (r : loc) (t : list message)
    (before after : list event) (msgs : list message) (m : message)
    (v0 v : pyval) (out : list line) :
  messages st = Some r ->
  h !! r = Some t ->
  graph (t ++ [user_message user_input]) = mkStream (before ++ Some msgs :: after) None ->
  for_events before None PNone = (Return v0, out) ->
  Forall (fun ev => ev = None) after ->
  last msgs = Some m ->
  extract_content m = Return v ->
  exists h',
    process_user_message graph user_input st h = (Return tt, h', out ++ [Thinking m]) /\
    read_messages st h'
      = Some (t ++ user_message user_input ::
                if truthy v then [assistant_message v] else []).
Proof.
  intros Hst Hh Hg Hb Ha Hl Hx.
  destruct (turn_outcome graph user_input st h r t (Return v) (out ++ [Thinking m]) Hst Hh)
    as (h' & Hp & Hr).
  - rewrite Hg. cbn [events ending]. exact (for_events_read before after msgs m v0 v out Hb Ha Hl Hx).
  - exists h'. split; [exact Hp | exact Hr].
Qed.

Lemma turn_answer_is_last_content_witness :
  exists h',
    process_user_message (Fixture.graph_ending_in Fixture.tool_request) "list devices"
      Fixture.new_session.1 Fixture.new_session.2
      = (Return tt, h',
         [Thinking (user_message "list devices")] ++ [Thinking Fixture.tool_request]) /\
    read_messages Fixture.new_session.1 h'
      = Some ([] ++ user_message "list devices" ::
                if truthy (PStr "") then [assistant_message (PStr "")] else []).
Proof.
  apply (turn_answer_is_last_content (Fixture.graph_ending_in Fixture.tool_request)
           "list devices" Fixture.new_session.1 Fixture.new_session.2 0%nat []
           [Some ([] ++ [user_message "list devices"])] []
           (([] ++ [user_message "list devices"]) ++ [Fixture.tool_request])
           Fixture.tool_request (PStr "list devices") (PStr "")
           [Thinking (user_message "list devices")]).
  - vm_compute. reflexivity.
  - vm_compute. reflexivity.
  - reflexivity.
  - reflexivity.
  - constructor.
  - reflexivity.
  - reflexivity.
Defined.

(** X15.  An event whose list of messages is empty aborts the turn with
    [IndexError]: the index [-1] is read outside the [try].  The user
    message stays in the transcript and no assistant message is added,
    whatever the later events hold. *)
Theorem turn_empty_event_raises
    (graph : list message -> stream) (user_input : string) (st : session_state)
    (h : gmap loc (list message)) (r : loc) (t : list message)
    (before after : list event) (how : option exn) (v0 : pyval) (out : list line) :
  messages st = Some r ->
  h !! r = Some t ->
  graph (t ++ [user_message user_input]) = mkStream (before ++ Some [] :: after) how ->
  for_events before None PNone = (Return v0, out) ->
  exists h',
    process_user_message graph user_input st h = (Raise IndexError, h', out) /\
    read_messages st h' = Some (t ++ [user_message user_input]).
Proof.
  intros Hst Hh Hg Hb.
  destruct (turn_outcome graph user_input st h r t (Raise IndexError) out Hst Hh)
    as (h' & Hp & Hr).
  - rewrite Hg. cbn [events ending]. rewrite <- (app_nil_r out).
    exact (for_events_raise before after how (Some []) IndexError v0 out [] Hb eq_refl).
  - exists h'. split; [exact Hp | exact Hr].
Qed.

Lemma turn_empty_event_raises_witness :
  exists h',
    process_user_message Fixture.empty_event_graph "hello" Fixture.new_session.1
      Fixture.new_session.2
      = (Raise IndexError, h', [Thinking (user_message "hello")]) /\
    read_messages Fixture.new_session.1 h' = Some ([] ++ [user_message "hello"]).
Proof.
  apply (turn_empty_event_raises Fixture.empty_event_graph "hello" Fixture.new_session.1
           Fixture.new_session.2 0%nat [] [Some ([] ++ [user_message "hello"])]
           [Some (([] ++ [user_message "hello"]) ++ [Fixture.answer])] None
           (PStr "hello") [Thinking (user_message "hello")]).
  - vm_compute. reflexivity.
  - vm_compute. reflexivity.
  - reflexivity.
  - reflexivity.
Defined.

(** X16.  When the stream fails after its events, the turn raises that
    exception: the user message stays in the transcript, and the answer
    already read from the events is not appended. *)
Theorem turn_stream_failure_drops_answer
    (graph : list message -> stream) (user_input : string) (st : session_state)
    (h : gmap loc (list message)) (r : loc) (t : list message)
    (e : exn) (v : pyval) (out : list line) :
  messages st = Some r ->
  h !! r = Some t ->
  ending (graph (t ++ [user_message user_input])) = Some e ->
  for_events (events (graph (t ++ [user_message user_input]))) None PNone
    = (Return v, out) ->
  exists h',
    process_user_message graph user_input st h = (Raise e, h', out) /\
    read_messages st h' = Some (t ++ [user_message user_input]).
Proof.
  intros Hst Hh Hend Hev.
  destruct (turn_outcome graph user_input st h r t (Raise e) out Hst Hh) as (h' & Hp & Hr).
  - rewrite Hend. exact (for_events_ending _ e PNone v out Hev).
  - exists h'. split; [exact Hp | exact Hr].
Qed.

Lemma turn_stream_failure_drops_answer_witness :
  exists h',
    process_user_message Fixture.failing_stream_graph "hello" Fixture.new_session.1
      Fixture.new_session.2
      = (Raise Fixture.connection_reset, h', [Thinking Fixture.answer]) /\
    read_messages Fixture.new_session.1 h' = Some ([] ++ [user_message "hello"]).
Proof.
  apply (turn_stream_failure_drops_answer Fixture.failing_stream_graph "hello"
           Fixture.new_session.1 Fixture.new_session.2 0%nat []
           Fixture.connection_reset (PStr "There are 2 devices.")
           [Thinking Fixture.answer]).
  - vm_compute. reflexivity.
  - vm_compute. reflexivity.
  - reflexivity.
  - reflexivity.
Defined.

(** X17.  A last message without content (a dict without the key, an
    object without the attribute, an attribute that raises
    [AttributeError]) is no error: its content counts as the text
    [No content available], and the turn appends that text as the
    assistant message. *)
Theorem turn_missing_content_default
    (graph : list message -> stream) (user_input : string) (st : session_state)
    (h : gmap loc (list message)) (r : loc) (t : list message)
    (before after : list event) (msgs : list message) (m : message)
    (v0 : pyval) (out : list line) :
  messages st = Some r ->
  h !! r = Some t ->
  graph (t ++ [user_message user_input]) = mkStream (before ++ Some msgs :: after) None ->
  for_events before None PNone = (Return v0, out) ->
  Forall (fun ev => ev = None) after ->
  last msgs = Some m ->
  lacks_content m ->
  extract_content m = Return (PStr "No content available") /\
  exists h',
    process_user_message graph user_input st h = (Return tt, h', out ++ [Thinking m]) /\
    read_messages st h'
      = Some (t ++ [user_message user_input;
                    assistant_message (PStr "No content available")]).
Proof.
  intros Hst Hh Hg Hb Ha Hl Hm.
  assert (Hx : extract_content m = Return (PStr "No content available")).
  { destruct Hm as [entries Hk| |]; simpl; [rewrite Hk|..]; reflexivity. }
  split; [exact Hx|].
  destruct (turn_outcome graph user_input st h r t (Return (PStr "No content available"))
              (out ++ [Thinking m]) Hst Hh) as (h' & Hp & Hr).
  - rewrite Hg. cbn [events ending].
    exact (for_events_read before after msgs m v0 _ out Hb Ha Hl Hx).
  - exists h'. split; [exact Hp | exact Hr].
Qed.

Lemma turn_missing_content_default_witness :
  extract_content Fixture.bare_message = Return (PStr "No content available") /\
  exists h',
    process_user_message (Fixture.graph_ending_in Fixture.bare_message) "hello"
      Fixture.new_session.1 Fixture.new_session.2
      = (Return tt, h',
         [Thinking (user_message "hello")] ++ [Thinking Fixture.bare_message]) /\
    read_messages Fixture.new_session.1 h'
      = Some ([] ++ [user_message "hello";
                     assistant_message (PStr "No content available")]).
Proof.
  apply (turn_missing_content_default (Fixture.graph_ending_in Fixture.bare_message)
           "hello" Fixture.new_session.1 Fixture.new_session.2 0%nat []
           [Some ([] ++ [user_message "hello"])] []
           (([] ++ [user_message "hello"]) ++ [Fixture.bare_message])
           Fixture.bare_message (PStr "hello") [Thinking (user_message "hello")]).
  - vm_compute. reflexivity.
  - vm_compute. reflexivity.
  - reflexivity.
  - reflexivity.
  - constructor.
  - reflexivity.
  - constructor.
Defined.

(** X18.  A turn changes one list object only, the one
    [st.session_state.messages] refers to: every other list of the store
    is left as it is; and without that attribute the turn raises
    [AttributeError] and changes nothing. *)
Theorem turn_touches_transcript_only
    (graph : list message -> stream) (user_input : string) (st : session_state)
    (h : gmap loc (list message)) :
  (forall r r', messages st = Some r -> r' <> r ->
     (process_user_message graph user_input st h).1.2 !! r' = h !! r') /\
  (messages st = None ->
     process_user_message graph user_input st h = (Raise AttributeError, h, [])).
Proof.
  unfold process_user_message. split.
  - intros r r' -> Hne. cbn zeta.
    destruct (for_events _ _ PNone) as [[v|e] out]; [destruct (truthy v)|]; simpl;
      unfold list_append; rewrite ?lookup_alter_ne by congruence; reflexivity.
  - intros ->. reflexivity.
Qed.

(** X19.  An exception outside [Exception] raised while the content is
    read is not replaced by the placeholder: it aborts the turn, with the
    user message left in the transcript. *)
Theorem turn_interrupt_propagates
    (graph : list message -> stream) (user_input : string) (st : session_state)
    (h : gmap loc (list message)) (r : loc) (t : list message)
    (before after : list event) (how : option exn) (msgs : list message)
    (m : message) (e : exn) (v0 : pyval) (out : list line) :
  messages st = Some r ->
  h !! r = Some t ->
  graph (t ++ [user_message user_input]) = mkStream (before ++ Some msgs :: after) how ->
  for_events before None PNone = (Return v0, out) ->
  last msgs = Some m ->
  extract_content m = Raise e ->
  is_Exception e = false ->
  exists h',
    process_user_message graph user_input st h = (Raise e, h', out ++ [Thinking m]) /\
    read_messages st h' = Some (t ++ [user_message user_input]).
Proof.
  intros Hst Hh Hg Hb Hl Hx He.
  destruct (turn_outcome graph user_input st h r t (Raise e) (out ++ [Thinking m]) Hst Hh)
    as (h' & Hp & Hr).
  - rewrite Hg. cbn [events ending].
    apply (for_events_raise before after how (Some msgs) e v0 out [Thinking m] Hb).
    unfold handle_event, last_message. rewrite Hl, Hx, He. reflexivity.
  - exists h'. split; [exact Hp | exact Hr].
Qed.

Lemma turn_interrupt_propagates_witness :
  exists h',
    process_user_message Fixture.interrupted_graph "hello" Fixture.new_session.1
      Fixture.new_session.2
      = (Raise KeyboardInterrupt, h',
         [] ++ [Thinking (MsgObject (AttrRaises KeyboardInterrupt))]) /\
    read_messages Fixture.new_session.1 h' = Some ([] ++ [user_message "hello"]).
Proof.
  apply (turn_interrupt_propagates Fixture.interrupted_graph "hello"
           Fixture.new_session.1 Fixture.new_session.2 0%nat [] [] [] None
           (([] ++ [user_message "hello"]) ++ [MsgObject (AttrRaises KeyboardInterrupt)])
           (MsgObject (AttrRaises KeyboardInterrupt)) KeyboardInterrupt PNone []).
  - vm_compute. reflexivity.
  - vm_compute. reflexivity.
  - reflexivity.
  - reflexivity.
  - reflexivity.
  - reflexivity.
  - reflexivity.
Defined.


(** ** [display_chat_history] *)

Section Display.

Variable py_repr : pyval -> string.

Lemma display_messages_app (xs ys : list message) :
  display_messages py_repr (xs ++ ys) =
  match display_messages py_repr xs with
  | (Return _, written) =>
      let '(res, written') := display_messages py_repr ys in (res, written ++ written')
  | (Raise e, written) => (Raise e, written)
  end.
Proof.
  induction xs as [|x xs IH]; simpl.
  - destruct (display_messages py_repr ys). reflexivity.
  - destruct (display_message py_repr x) as [w|e]; [|reflexivity].
    rewrite IH. destruct (display_messages py_repr xs) as [[u|e] written].
    + destruct (display_messages py_repr ys). rewrite app_assoc. reflexivity.
    + reflexivity.
Qed.

(** The messages of turns are written one line each, in order. *)
Lemma display_messages_turns (t : list message) :
  Forall turn_message t ->
  exists written,
    display_messages py_repr t = (Return tt, written) /\
    length written = length t /\
    forall i : nat,
      (forall u, t !! i = Some (user_message u) ->
         written !! i = Some (Written ("**You:** " +:+ u))) /\
      (forall v, t !! i = Some (assistant_message v) ->
         written !! i = Some (Written ("**Assistant:** " +:+ py_str py_repr v))).
Proof.
  induction 1 as [|m t Hm _ (written & Hd & Hlen & Hat)].
  - exists []. repeat split; intros; discriminate.
  - destruct Hm as [u0|v0].
    + exists (Written ("**You:** " +:+ u0) :: written).
      split; [cbn [display_messages]; change (display_message py_repr (user_message u0))
                with (Return (A:=list widget) [Written ("**You:** " +:+ u0)]);
              cbn iota; rewrite Hd; reflexivity|].
      split; [simpl; rewrite Hlen; reflexivity|].
      intros [|i]; [|exact (Hat i)].
      split; [intros u [= <-]; reflexivity | intros v H; discriminate H].
    + exists (Written ("**Assistant:** " +:+ py_str py_repr v0) :: written).
      split; [cbn [display_messages]; change (display_message py_repr (assistant_message v0))
                with (Return (A:=list widget)
                        [Written ("**Assistant:** " +:+ py_str py_repr v0)]);
              cbn iota; rewrite Hd; reflexivity|].
      split; [simpl; rewrite Hlen; reflexivity|].
      intros [|i]; [|exact (Hat i)].
      split; [intros u H; discriminate H | intros v [= <-]; reflexivity].
Qed.

Lemma display_messages_not_shown (t : list message) :
  Forall not_shown t -> display_messages py_repr t = (Return tt, []).
Proof.
  induction 1 as [|m t Hm _ IH]; [reflexivity|].
  cbn [display_messages].
  assert (Hd : display_message py_repr m = Return []).
  { destruct m as [entries|c]; [|reflexivity].
    destruct Hm as [Hu Ha]. unfold display_message. rewrite Hu, Ha. reflexivity. }
  rewrite Hd, IH. reflexivity.
Qed.

End Display.

(** X20.  On a transcript that holds messages of turns only,
    [display_chat_history] does not raise and writes the heading and then
    one line for each message, in the order of the transcript: the text of
    a user message after [**You:**], and the content of an assistant
    message after [**Assistant:**]. *)
Theorem display_shows_every_turn_message
    (py_repr : pyval -> string) (st : session_state) (h : gmap loc (list message))
    (r : loc) (t : list message) :
  messages st = Some r ->
  h !! r = Some t ->
  Forall turn_message t ->
  exists written,
    display_chat_history py_repr st h = (Return tt, Written "### Chat History" :: written) /\
    length written = length t /\
    forall i : nat,
      (forall u, t !! i = Some (user_message u) ->
         written !! i = Some (Written ("**You:** " +:+ u))) /\
      (forall v, t !! i = Some (assistant_message v) ->
         written !! i = Some (Written ("**Assistant:** " +:+ py_str py_repr v))).
Proof.
  intros Hst Hh Ht.
  destruct (display_messages_turns py_repr t Ht) as (written & Hd & Hlen & Hat).
  exists written. split; [|split; assumption].
  unfold display_chat_history. rewrite Hst, Hh. cbn [from_option id]. rewrite Hd. reflexivity.
Qed.

Lemma display_shows_every_turn_message_witness :
  exists written,
    display_chat_history Fixture.plain_repr
      (Fixture.session_with [user_message "hello"; assistant_message (PStr "Hi.")]).1
      (Fixture.session_with [user_message "hello"; assistant_message (PStr "Hi.")]).2
      = (Return tt, Written "### Chat History" :: written) /\
    length written = length [user_message "hello"; assistant_message (PStr "Hi.")] /\
    forall i : nat,
      (forall u,
         [user_message "hello"; assistant_message (PStr "Hi.")] !! i
           = Some (user_message u) ->
         written !! i = Some (Written ("**You:** " +:+ u))) /\
      (forall v,
         [user_message "hello"; assistant_message (PStr "Hi.")] !! i
           = Some (assistant_message v) ->
         written !! i
           = Some (Written ("**Assistant:** " +:+ py_str Fixture.plain_repr v))).
Proof.
  apply (display_shows_every_turn_message Fixture.plain_repr
           (Fixture.session_with [user_message "hello"; assistant_message (PStr "Hi.")]).1
           (Fixture.session_with [user_message "hello"; assistant_message (PStr "Hi.")]).2
           0%nat).
  - reflexivity.
  - vm_compute. reflexivity.
  - repeat constructor.
Defined.

(** X21.  A turn keeps the transcript in the form the page can show: when
    it holds messages of turns only before the turn, it does so after the
    turn, whether the turn ends normally or raises, and
    [display_chat_history] on the result does not raise. *)
Theorem turn_keeps_transcript_showable
    (graph : list message -> stream) (py_repr : pyval -> string)
    (user_input : string) (st : session_state) (h : gmap loc (list message))
    (r : loc) (t : list message) :
  messages st = Some r ->
  h !! r = Some t ->
  Forall turn_message t ->
  exists t',
    read_messages st (process_user_message graph user_input st h).1.2 = Some t' /\
    Forall turn_message t' /\
    (display_chat_history py_repr st
       (process_user_message graph user_input st h).1.2).1 = Return tt.
Proof.
  intros Hst Hh Ht.
  destruct (turn_extends_transcript graph user_input st h r t Hst Hh) as (suffix & Hr & Hs).
  exists (t ++ user_message user_input :: suffix).
  assert (Ht' : Forall turn_message (t ++ user_message user_input :: suffix)).
  { apply Forall_app. split; [exact Ht|]. constructor; [constructor|].
    destruct Hs as [->|[v ->]]; repeat constructor. }
  split; [unfold read_messages; rewrite Hst; exact Hr|]. split; [exact Ht'|].
  destruct (display_messages_turns py_repr _ Ht') as (written & Hd & _).
  unfold display_chat_history. rewrite Hst, Hr. cbn [from_option id]. rewrite Hd. reflexivity.
Qed.

Lemma turn_keeps_transcript_showable_witness :
  exists t',
    read_messages Fixture.new_session.1
      (process_user_message Fixture.failing_stream_graph "hello"
         Fixture.new_session.1 Fixture.new_session.2).1.2 = Some t' /\
    Forall turn_message t' /\
    (display_chat_history Fixture.plain_repr Fixture.new_session.1
       (process_user_message Fixture.failing_stream_graph "hello"
          Fixture.new_session.1 Fixture.new_session.2).1.2).1 = Return tt.
Proof.
  apply (turn_keeps_transcript_showable Fixture.failing_stream_graph Fixture.plain_repr
           "hello" Fixture.new_session.1 Fixture.new_session.2 0%nat []).
  - vm_compute. reflexivity.
  - vm_compute. reflexivity.
  - constructor.
Defined.

(** X22.  [display_chat_history] reads the role with a default and the
    content without one: a dict with role [user] or [assistant] but no
    content raises [KeyError] for [content]; the lines of the messages
    before it are written and those after it are not. *)
Theorem display_requires_content
    (py_repr : pyval -> string) (st : session_state) (h : gmap loc (list message))
    (r : loc) (shown rest : list message) (entries : list (string * pyval)) :
  messages st = Some r ->
  h !! r = Some (shown ++ MsgDict entries :: rest) ->
  Forall turn_message shown ->
  has_role "user" entries = true \/ has_role "assistant" entries = true ->
  assoc "content" entries = None ->
  exists written,
    display_chat_history py_repr st h
      = (Raise (KeyError "content"), Written "### Chat History" :: written) /\
    length written = length shown.
Proof.
  intros Hst Hh Ht Hrole Hc.
  destruct (display_messages_turns py_repr shown Ht) as (written & Hd & Hlen & _).
  exists written. split; [|exact Hlen].
  unfold display_chat_history. rewrite Hst, Hh. cbn [from_option id].
  rewrite display_messages_app, Hd. cbn [display_messages].
  assert (Hm : display_message py_repr (MsgDict entries) = Raise (KeyError "content")).
  { unfold display_message, py_subscript. rewrite Hc.
    destruct (has_role "user" entries); [reflexivity|].
    destruct Hrole as [Hu|Ha]; [discriminate|]. rewrite Ha. reflexivity. }
  rewrite Hm, app_nil_r. reflexivity.
Qed.

Lemma display_requires_content_witness :
  exists written,
    display_chat_history Fixture.plain_repr
      (Fixture.session_with ([user_message "hello"] ++ MsgDict [("role", PStr "user")]
                              :: [assistant_message (PStr "never shown")])).1
      (Fixture.session_with ([user_message "hello"] ++ MsgDict [("role", PStr "user")]
                              :: [assistant_message (PStr "never shown")])).2
      = (Raise (KeyError "content"), Written "### Chat History" :: written) /\
    length written = length [user_message "hello"].
Proof.
  apply (display_requires_content Fixture.plain_repr _ _ 0%nat [user_message "hello"]
           [assistant_message (PStr "never shown")] [("role", PStr "user")]).
  - reflexivity.
  - vm_compute. reflexivity.
  - repeat constructor.
  - left. reflexivity.
  - reflexivity.
Defined.

(** X23.  [display_chat_history] passes over what is no chat entry: for a
    transcript of message objects and of dicts whose role is neither
    [user] nor [assistant] it writes the heading only, and does not
    raise. *)
Theorem display_skips_other_messages
    (py_repr : pyval -> string) (st : session_state) (h : gmap loc (list message))
    (r : loc) (t : list message) :
  messages st = Some r ->
  h !! r = Some t ->
  Forall not_shown t ->
  display_chat_history py_repr st h = (Return tt, [Written "### Chat History"]).
Proof.
  intros Hst Hh Ht. unfold display_chat_history. rewrite Hst, Hh. cbn [from_option id].
  rewrite (display_messages_not_shown py_repr t Ht). reflexivity.
Qed.

Lemma display_skips_other_messages_witness :
  display_chat_history Fixture.plain_repr
    (Fixture.session_with [Fixture.answer; MsgDict [("role", PStr "tool"); ("content", PStr "[]")];
                           MsgDict [("content", PStr "no role")]]).1
    (Fixture.session_with [Fixture.answer; MsgDict [("role", PStr "tool"); ("content", PStr "[]")];
                           MsgDict [("content", PStr "no role")]]).2
  = (Return tt, [Written "### Chat History"]).
Proof.
  apply (display_skips_other_messages Fixture.plain_repr _ _ 0%nat
           [Fixture.answer; MsgDict [("role", PStr "tool"); ("content", PStr "[]")];
            MsgDict [("content", PStr "no role")]]).
  - reflexivity.
  - vm_compute. reflexivity.
  - repeat constructor.
Defined.

(** ** [main] *)

Lemma lstrip_blank (s : string) : blank s = true -> lstrip s = "".
Proof.
  unfold blank. induction s as [|c s IH]; simpl; [reflexivity|].
  destruct (py_isspace c); simpl; [exact IH | discriminate].
Qed.

Lemma lstrip_not_blank (s : string) :
  blank s = false -> exists c rest, lstrip s = String c rest /\ py_isspace c = false.
Proof.
  unfold blank. induction s as [|c s IH]; simpl; [discriminate|].
  destruct (py_isspace c) eqn:E; simpl; [exact IH|].
  intros _. exists c, s. split; [reflexivity | exact E].
Qed.

Lemma rstrip_keeps_head (c : ascii) (rest : string) :
  py_isspace c = false -> rstrip (String c rest) <> "".
Proof.
  intros E. cbn [rstrip]. destruct (rstrip rest); [rewrite E|]; discriminate.
Qed.

(** [typed.strip()] is true exactly when [typed] has a character that is
    no white space. *)
Lemma strip_truthy (typed : string) : truthy (PStr (strip typed)) = negb (blank typed).
Proof.
  unfold strip. destruct (blank typed) eqn:B.
  - rewrite (lstrip_blank typed B). reflexivity.
  - destruct (lstrip_not_blank typed B) as (c & rest & -> & E).
    pose proof (rstrip_keeps_head c rest E) as H.
    unfold truthy. destruct (rstrip (String c rest)); [contradiction | reflexivity].
Qed.

Section MoreMain.

Variable graph : list message -> stream.
Variable py_repr : pyval -> string.

Definition top : list widget :=
  [Title "Catalyst Center Agent Buddy";
   TextInput "You:" "Type your question here...";
   Button "Send"].

Lemma main_idle (typed : string) (send : bool) (st : session_state)
    (h : gmap loc (list message)) :
  send = false \/ blank typed = true ->
  main graph py_repr typed send st h =
  (let '(st1, h1) := initialize_session_state st h in
   let '(res, written) := display_chat_history py_repr st1 h1 in
   (res, st1, h1, [], top ++ written)).
Proof.
  intros Hidle. unfold main.
  destruct (initialize_session_state st h) as [st1 h1]. cbn [get_user_input].
  rewrite strip_truthy.
  replace (send && negb (blank typed)) with false; [reflexivity|].
  destruct Hidle as [->| ->]; [reflexivity | apply eq_sym, andb_false_r].
Qed.

Lemma main_send (typed : string) (st : session_state)
    (h : gmap loc (list message)) (r : loc) :
  messages st = Some r -> blank typed = false ->
  main graph py_repr typed true st h =
  match process_user_message graph typed st h with
  | (Raise e, h2, out) => (Raise e, st, h2, out, top)
  | (Return _, h2, out) =>
      let '(res, written) := display_chat_history py_repr st h2 in
      (res, st, h2, out, top ++ written)
  end.
Proof.
  intros Hst Hb. unfold main, initialize_session_state. rewrite Hst.
  cbn [get_user_input]. rewrite strip_truthy, Hb. reflexivity.
Qed.

End MoreMain.

(** X24.  A run of [main] in which the button is not pressed, or the text
    typed is empty or white space only, starts no turn: the stream of the
    graph is not consulted (the run is the same for every graph), nothing
    is printed, and the store is the one [initialize_session_state]
    leaves. *)
Theorem main_ignores_blank_input
    (graph : list message -> stream) (py_repr : pyval -> string)
    (typed : string) (send : bool) (st : session_state) (h : gmap loc (list message)) :
  send = false \/ blank typed = true ->
  (forall graph', main graph' py_repr typed send st h = main graph py_repr typed send st h) /\
  (main graph py_repr typed send st h).1.2 = [] /\
  (main graph py_repr typed send st h).1.1.2 = (initialize_session_state st h).2 /\
  (main graph py_repr typed send st h).1.1.1.2 = (initialize_session_state st h).1.
Proof.
  intros Hidle. split.
  - intros graph'. rewrite !main_idle by exact Hidle. reflexivity.
  - rewrite main_idle by exact Hidle.
    destruct (initialize_session_state st h) as [st1 h1].
    destruct (display_chat_history py_repr st1 h1). repeat split.
Qed.

Lemma main_ignores_blank_input_witness :
  (forall graph',
     main graph' Fixture.plain_repr "   " true (mkSession None) ∅
     = main Fixture.recovering_graph Fixture.plain_repr "   " true (mkSession None) ∅) /\
  (main Fixture.recovering_graph Fixture.plain_repr "   " true (mkSession None) ∅).1.2 = [] /\
  (main Fixture.recovering_graph Fixture.plain_repr "   " true (mkSession None) ∅).1.1.2
    = (initialize_session_state (mkSession None) ∅).2 /\
  (main Fixture.recovering_graph Fixture.plain_repr "   " true (mkSession None) ∅).1.1.1.2
    = (initialize_session_state (mkSession None) ∅).1.
Proof.
  apply (main_ignores_blank_input Fixture.recovering_graph Fixture.plain_repr "   " true
           (mkSession None) ∅).
  right. reflexivity.
Defined.

(** X25.  When the button is pressed and the text typed has a character
    that is no white space, [main] runs a turn with the text as typed:
    the white space around it is tested but not removed, so the user
    message appended holds the whole text. *)
Theorem main_sends_text_as_typed
    (graph : list message -> stream) (py_repr : pyval -> string)
    (typed : string) (st : session_state) (h : gmap loc (list message))
    (r : loc) (t : list message) :
  messages st = Some r ->
  h !! r = Some t ->
  blank typed = false ->
  (main graph py_repr typed true st h).1.1.2
    = (process_user_message graph typed st h).1.2 /\
  exists suffix,
    read_messages st (main graph py_repr typed true st h).1.1.2
      = Some (t ++ user_message typed :: suffix) /\
    (suffix = [] \/ exists v, suffix = [assistant_message v]).
Proof.
  intros Hst Hh Hb.
  assert (Hstore : (main graph py_repr typed true st h).1.1.2
                   = (process_user_message graph typed st h).1.2).
  { rewrite (main_send graph py_repr typed st h r Hst Hb).
    destruct (process_user_message graph typed st h) as [[[u|e] h2] out]; [|reflexivity].
    destruct (display_chat_history py_repr st h2). reflexivity. }
  split; [exact Hstore|]. rewrite Hstore.
  destruct (turn_extends_transcript graph typed st h r t Hst Hh) as (suffix & Hr & Hs).
  exists suffix. split; [|exact Hs]. unfold read_messages. rewrite Hst. exact Hr.
Qed.

Lemma main_sends_text_as_typed_witness :
  (main Fixture.silent_graph Fixture.plain_repr "  list devices " true
     Fixture.new_session.1 Fixture.new_session.2).1.1.2
    = (process_user_message Fixture.silent_graph "  list devices "
         Fixture.new_session.1 Fixture.new_session.2).1.2 /\
  exists suffix,
    read_messages Fixture.new_session.1
      (main Fixture.silent_graph Fixture.plain_repr "  list devices " true
         Fixture.new_session.1 Fixture.new_session.2).1.1.2
      = Some ([] ++ user_message "  list devices " :: suffix) /\
    (suffix = [] \/ exists v, suffix = [assistant_message v]).
Proof.
  apply (main_sends_text_as_typed Fixture.silent_graph Fixture.plain_repr
           "  list devices " Fixture.new_session.1 Fixture.new_session.2 0%nat []).
  - vm_compute. reflexivity.
  - vm_compute. reflexivity.
  - reflexivity.
Defined.

(** X26.  When the turn raises, [main] raises as well and the chat history
    is not written: the page holds the title, the input box and the button
    only, while the store already holds the user message. *)
Theorem main_failed_turn_shows_no_history
    (graph : list message -> stream) (py_repr : pyval -> string)
    (typed : string) (st : session_state) (h : gmap loc (list message))
    (r : loc) (t : list message) (e : exn) (out : list line) :
  messages st = Some r ->
  h !! r = Some t ->
  blank typed = false ->
  for_events (events (graph (t ++ [user_message typed])))
             (ending (graph (t ++ [user_message typed]))) PNone = (Raise e, out) ->
  exists h',
    main graph py_repr typed true st h
      = (Raise e, st, h', out,
         [Title "Catalyst Center Agent Buddy";
          TextInput "You:" "Type your question here...";
          Button "Send"]) /\
    read_messages st h' = Some (t ++ [user_message typed]).
Proof.
  intros Hst Hh Hb Hfor.
  destruct (turn_outcome graph typed st h r t (Raise e) out Hst Hh Hfor) as (h' & Hp & Hr).
  exists h'. split; [|exact Hr].
  rewrite (main_send graph py_repr typed st h r Hst Hb), Hp. reflexivity.
Qed.

Lemma main_failed_turn_shows_no_history_witness :
  exists h',
    main Fixture.failing_stream_graph Fixture.plain_repr "hello" true
      Fixture.new_session.1 Fixture.new_session.2
      = (Raise Fixture.connection_reset, Fixture.new_session.1, h',
         [Thinking Fixture.answer],
         [Title "Catalyst Center Agent Buddy";
          TextInput "You:" "Type your question here...";
          Button "Send"]) /\
    read_messages Fixture.new_session.1 h' = Some ([] ++ [user_message "hello"]).
Proof.
  apply (main_failed_turn_shows_no_history Fixture.failing_stream_graph
           Fixture.plain_repr "hello" Fixture.new_session.1 Fixture.new_session.2
           0%nat [] Fixture.connection_reset [Thinking Fixture.answer]).
  - vm_compute. reflexivity.
  - vm_compute. reflexivity.
  - reflexivity.
  - reflexivity.
Defined.

(** X27.  After a turn that ends normally on a transcript of turn
    messages, the page of [main] holds the title, the input box, the
    button and the heading, then the lines of the earlier messages, then
    the line of the text typed, and last the line of the answer when the
    answer is true. *)
Theorem main_page_after_turn
    (graph : list message -> stream) (py_repr : pyval -> string)
    (typed : string) (st : session_state) (h : gmap loc (list message))
    (r : loc) (t : list message) (v : pyval) (out : list line)
    (written : list widget) :
  messages st = Some r ->
  h !! r = Some t ->
  blank typed = false ->
  for_events (events (graph (t ++ [user_message typed])))
             (ending (graph (t ++ [user_message typed]))) PNone = (Return v, out) ->
  display_messages py_repr t = (Return tt, written) ->
  (main graph py_repr typed true st h).1.1.1.1 = Return tt /\
  (main graph py_repr typed true st h).1.2 = out /\
  (main graph py_repr typed true st h).2 =
    [Title "Catalyst Center Agent Buddy";
     TextInput "You:" "Type your question here...";
     Button "Send";
     Written "### Chat History"]
    ++ written ++ Written ("**You:** " +:+ typed)
    :: (if truthy v then [Written ("**Assistant:** " +:+ py_str py_repr v)] else []).
Proof.
  intros Hst Hh Hb Hfor Hd.
  destruct (turn_outcome graph typed st h r t (Return v) out Hst Hh Hfor) as (h' & Hp & Hr).
  rewrite (main_send graph py_repr typed st h r Hst Hb), Hp.
  unfold read_messages in Hr. rewrite Hst in Hr. simpl in Hr.
  unfold display_chat_history. rewrite Hst, Hr. cbn [from_option id].
  rewrite display_messages_app, Hd.
  destruct (truthy v); repeat split.
Qed.

Lemma main_page_after_turn_witness :
  (main (Fixture.graph_ending_in Fixture.answer) Fixture.plain_repr "how many?" true
     (Fixture.session_with [user_message "hello"; assistant_message (PStr "Hi.")]).1
     (Fixture.session_with [user_message "hello"; assistant_message (PStr "Hi.")]).2).1.1.1.1
    = Return tt /\
  (main (Fixture.graph_ending_in Fixture.answer) Fixture.plain_repr "how many?" true
     (Fixture.session_with [user_message "hello"; assistant_message (PStr "Hi.")]).1
     (Fixture.session_with [user_message "hello"; assistant_message (PStr "Hi.")]).2).1.2
    = [Thinking (user_message "how many?"); Thinking Fixture.answer] /\
  (main (Fixture.graph_ending_in Fixture.answer) Fixture.plain_repr "how many?" true
     (Fixture.session_with [user_message "hello"; assistant_message (PStr "Hi.")]).1
     (Fixture.session_with [user_message "hello"; assistant_message (PStr "Hi.")]).2).2
    = [Title "Catalyst Center Agent Buddy";
       TextInput "You:" "Type your question here...";
       Button "Send";
       Written "### Chat History"]
      ++ [Written "**You:** hello"; Written "**Assistant:** Hi."]
      ++ Written ("**You:** " +:+ "how many?")
      :: (if truthy (PStr "There are 2 devices.")
          then [Written ("**Assistant:** "
                         +:+ py_str Fixture.plain_repr (PStr "There are 2 devices."))]
          else []).
Proof.
  apply (main_page_after_turn (Fixture.graph_ending_in Fixture.answer) Fixture.plain_repr
           "how many?"
           (Fixture.session_with [user_message "hello"; assistant_message (PStr "Hi.")]).1
           (Fixture.session_with [user_message "hello"; assistant_message (PStr "Hi.")]).2
           0%nat [user_message "hello"; assistant_message (PStr "Hi.")]
           (PStr "There are 2 devices.")).
  - reflexivity.
  - vm_compute. reflexivity.
  - reflexivity.
  - reflexivity.
  - reflexivity.
Defined.

(** ** The graph of [build_langgraph] *)

Lemma successors_START : successors graph_builder START = [Node "chatbot"].
Proof. reflexivity. Qed.

Lemma successors_chatbot :
  successors graph_builder (Node "chatbot") = [Node "tools"; END].
Proof. reflexivity. Qed.

Lemma successors_tools : successors graph_builder (Node "tools") = [Node "chatbot"].
Proof. reflexivity. Qed.

Lemma successors_END : successors graph_builder END = [].
Proof. reflexivity. Qed.

Lemma is_walk_cons (a b : vertex) (rest : list vertex) :
  is_walk graph_builder (a :: b :: rest) = true <->
  b ∈ successors graph_builder a /\ is_walk graph_builder (b :: rest) = true.
Proof.
  cbn [is_walk]. rewrite andb_true_iff, bool_decide_eq_true. reflexivity.
Qed.

(** From the node [chatbot] a walk to the end goes through rounds of
    [tools] and [chatbot]. *)
Lemma walk_from_chatbot (n : nat) :
  forall rest : list vertex,
    (length rest <= n)%nat ->
    is_walk graph_builder (Node "chatbot" :: rest) = true ->
    last (Node "chatbot" :: rest) = Some END ->
    exists k, rest = concat (replicate k [Node "tools"; Node "chatbot"]) ++ [END].
Proof.
  induction n as [|n IH]; intros rest Hlen Hw Hl.
  - destruct rest; [discriminate Hl | simpl in Hlen; lia].
  - destruct rest as [|b rest]; [discriminate Hl|].
    apply is_walk_cons in Hw as [Hb Hw]. rewrite successors_chatbot in Hb.
    apply elem_of_cons in Hb as [->|Hb].
    + destruct rest as [|c rest]; [discriminate Hl|].
      apply is_walk_cons in Hw as [Hc Hw]. rewrite successors_tools in Hc.
      apply list_elem_of_singleton in Hc as ->.
      destruct (IH rest) as [k ->].
      * simpl in Hlen. lia.
      * exact Hw.
      * exact Hl.
      * exists (S k). reflexivity.
    + apply list_elem_of_singleton in Hb as ->.
      destruct rest as [|c rest]; [exists 0%nat; reflexivity|].
      apply is_walk_cons in Hw as [Hc _]. rewrite successors_END in Hc.
      apply elem_of_nil in Hc. contradiction.
Qed.

Lemma run_path_tail_walk (k : nat) :
  is_walk graph_builder
    (Node "chatbot" :: concat (replicate k [Node "tools"; Node "chatbot"]) ++ [END]) = true /\
  last (Node "chatbot" :: concat (replicate k [Node "tools"; Node "chatbot"]) ++ [END])
    = Some END.
Proof.
  induction k as [|k [IHw IHl]]; [split; reflexivity|].
  split.
  - change (is_walk graph_builder
              (Node "chatbot" :: Node "tools" :: Node "chatbot"
                 :: concat (replicate k [Node "tools"; Node "chatbot"]) ++ [END]) = true).
    apply is_walk_cons. split; [rewrite successors_chatbot; left|].
    apply is_walk_cons. split; [rewrite successors_tools; left | exact IHw].
  - exact IHl.
Qed.

(** X28.  The graph built by [build_langgraph] has one shape of complete
    run: from the start to [chatbot], then any number of rounds of [tools]
    followed by [chatbot], then the end.  So the model is asked first and
    last, and every round of tool calls goes back to the model. *)
Theorem graph_runs_alternate (path : list vertex) :
  (is_walk graph_builder path = true /\ head path = Some START /\ last path = Some END)
  <-> exists k, path = run_path k.
Proof.
  split.
  - intros (Hw & Hh & Hl).
    destruct path as [|a path]; [discriminate Hh|]. injection Hh as ->.
    destruct path as [|b path]; [discriminate Hl|].
    apply is_walk_cons in Hw as [Hb Hw]. rewrite successors_START in Hb.
    apply list_elem_of_singleton in Hb as ->.
    destruct (walk_from_chatbot (length path) path (le_n _) Hw Hl) as [k ->].
    exists k. reflexivity.
  - intros [k ->]. destruct (run_path_tail_walk k) as [Hw Hl].
    unfold run_path. split; [|split; [reflexivity | exact Hl]].
    apply is_walk_cons. split; [rewrite successors_START; left | exact Hw].
Qed.
